(** * docker_stats_tracker.py: a shallow embedding and its properties

    The program polls Docker Hub for the pull count of each configured
    repository, appends one row per fetched count to a CSV ledger and, under
    GitHub Actions, commits and pushes the ledger.

    The embedding follows the source method by method.  Everything the
    program obtains from outside its own text (environment variables, the
    clock, the registry, git, [json.loads], [repr]) is a field of [world];
    everything it changes (the ledger, the log, standard output, the requests
    it issued, the commands it spawned) is a field of [state].  Exceptions are
    values of [exn]; a computation is a function from a state to a result or
    an exception, together with the state reached.

    Writing to standard output can fail: [print] raises what the world says
    writing that text raises (a [UnicodeEncodeError] for a text the encoding
    of standard output cannot hold, an [OSError] for a closed stream), and
    the exit status depends on whether standard output can be flushed when
    the interpreter shuts down.

    What the model leaves out: file operations that fail (the ledger can
    always be opened and written), the bytes of the CSV file (the file is the
    list of the rows written through [csv.writer], each row the list of its
    fields), the digits of a float (a float is what the program observes of
    it), and exceptions outside Python's [Exception] class, such as
    [KeyboardInterrupt]. *)

From Stdlib Require Import String Ascii List ZArith Lia Bool DecimalString.
Import ListNotations.
Open Scope string_scope.

#[global] Arguments String.append : simpl never.
#[global] Arguments String.concat : simpl never.

(** ** Python values *)

(** A float is carried by what the program can observe of it: its truth
    value, [str(x)] and [format(x, ',')]. *)
Record pyfloat := {
  fl_nonzero : bool;
  fl_str : string;
  fl_grouped : string
}.

(** The values [json.loads] and [response.json()] produce.  A [VDict] lists
    its pairs in the order the parser met them; a later pair with the same key
    replaces an earlier one. *)
#[warnings="-register-all"]
Inductive value :=
| VNone
| VBool (b : bool)
| VInt (z : Z)
| VFloat (f : pyfloat)
| VStr (s : string)
| VList (l : list value)
| VDict (kvs : list (string * value)).

(** [bool(v)], the test behind [if v] and [not v]. *)
Definition truthy (v : value) : bool :=
  match v with
  | VNone => false
  | VBool b => b
  | VInt z => negb (z =? 0)%Z
  | VFloat f => fl_nonzero f
  | VStr s => negb (s =? "")
  | VList l => match l with [] => false | _ => true end
  | VDict kvs => match kvs with [] => false | _ => true end
  end.

(** [type(v).__name__] *)
Definition type_name (v : value) : string :=
  match v with
  | VNone => "NoneType"
  | VBool _ => "bool"
  | VInt _ => "int"
  | VFloat _ => "float"
  | VStr _ => "str"
  | VList _ => "list"
  | VDict _ => "dict"
  end.

(** ** Exceptions *)

(** The subclasses of [requests.exceptions.RequestException] the program can
    meet. *)
Inductive request_error :=
| Timeout
| ConnectionError
| HTTPError
| InvalidJSON
| OtherRequestError.

(** Every constructor is a subclass of Python's [Exception]. *)
Inductive exn :=
| ValueError (msg : string)
| TypeError (msg : string)
| AttributeError (msg : string)
| KeyError (key : string)
| UnboundLocalError (var : string)
| RequestException (kind : request_error) (msg : string)
| OSError (msg : string)
| UnicodeEncodeError (msg : string)
| Exception (msg : string).

(** [isinstance(e, requests.exceptions.RequestException)] *)
Definition is_request_exception (e : exn) : bool :=
  match e with
  | RequestException _ _ => true
  | _ => false
  end.

(** [str(e)].  A [KeyError] prints the repr of its key; the text of an
    [UnboundLocalError] is that of CPython 3.11 and later. *)
Definition str_exn (e : exn) : string :=
  match e with
  | ValueError msg => msg
  | TypeError msg => msg
  | AttributeError msg => msg
  | KeyError key => "'" ++ key ++ "'"
  | UnboundLocalError var =>
      "cannot access local variable '" ++ var
        ++ "' where it is not associated with a value"
  | RequestException _ msg => msg
  | OSError msg => msg
  | UnicodeEncodeError msg => msg
  | Exception msg => msg
  end.

(** ** Strings and numbers *)

Definition nl : string := String (ascii_of_nat 10) EmptyString.

(** [str(n)] for a length and for an [int]. *)
Definition str_nat (n : nat) : string := NilZero.string_of_uint (Nat.to_uint n).
Definition str_int (z : Z) : string := NilZero.string_of_int (Z.to_int z).

(** [ds] holds the digits from the least significant one; [n] counts the
    digits already in the current group of three. *)
Fixpoint insert_commas (ds : list ascii) (n : nat) : list ascii :=
  match ds with
  | [] => []
  | d :: rest =>
      match n with
      | 3 => ","%char :: d :: insert_commas rest 1
      | _ => d :: insert_commas rest (S n)
      end
  end.

(** [format(z, ',')] for an [int]. *)
Definition group_int (z : Z) : string :=
  let digits := list_ascii_of_string (str_int (Z.abs z)) in
  let grouped := string_of_list_ascii (rev (insert_commas (rev digits) 0)) in
  if (z <? 0)%Z then "-" ++ grouped else grouped.

(** The last pair with key [k], as a Python dict built left to right holds. *)
Definition dict_get (k : string) (kvs : list (string * value)) : option value :=
  fold_left (fun acc kv => if fst kv =? k then Some (snd kv) else acc) kvs None.

(** The keys in the order of their first insertion. *)
Fixpoint dict_keys (seen : list string) (kvs : list (string * value)) : list string :=
  match kvs with
  | [] => []
  | (k, _) :: rest =>
      if existsb (String.eqb k) seen then dict_keys seen rest
      else k :: dict_keys (k :: seen) rest
  end.

(** [obj.get(key)]: only a dict has the method; a missing key gives [None]. *)
Definition py_get (obj : value) (key : string) : value + exn :=
  match obj with
  | VDict kvs =>
      inl (match dict_get key kvs with Some v => v | None => VNone end)
  | _ =>
      inr (AttributeError ("'" ++ type_name obj ++ "' object has no attribute 'get'"))
  end.

(** [obj[key]] for a string key. *)
Definition py_getitem (obj : value) (key : string) : value + exn :=
  match obj with
  | VDict kvs =>
      match dict_get key kvs with
      | Some v => inl v
      | None => inr (KeyError key)
      end
  | VList _ => inr (TypeError "list indices must be integers or slices, not str")
  | VStr _ => inr (TypeError "string indices must be integers, not 'str'")
  | _ => inr (TypeError ("'" ++ type_name obj ++ "' object is not subscriptable"))
  end.

(** [iter(obj)], run to its end: what [for x in obj] goes through. *)
Definition py_iter (obj : value) : list value + exn :=
  match obj with
  | VList l => inl l
  | VDict kvs => inl (map VStr (dict_keys [] kvs))
  | VStr s => inl (map (fun c => VStr (String c EmptyString)) (list_ascii_of_string s))
  | _ => inr (TypeError ("'" ++ type_name obj ++ "' object is not iterable"))
  end.

(** [format(v, ',')], the conversion behind [f"{v:,}"]. *)
Definition format_grouped (v : value) : string + exn :=
  match v with
  | VInt z => inl (group_int z)
  | VBool b => inl (if b then "1" else "0")
  | VFloat f => inl (fl_grouped f)
  | VStr _ => inr (ValueError "Cannot specify ',' with 's'.")
  | _ =>
      inr (TypeError ("unsupported format string passed to " ++ type_name v ++ ".__format__"))
  end.

(** ** The outside world *)

Inductive level := INFO | ERROR.

(** What [requests.get] hands back on success: [body] is the outcome of
    [response.json()]. *)
Record response := {
  status_code : Z;
  reason : string;
  body : value + exn
}.

Inductive get_result :=
| GetRaises (e : exn)
| GetResponse (r : response).

(** [subprocess.run(args)] without [check=True]: a child that ran gives a
    [CompletedProcess] whatever its return code; only a child that could not
    be started raises. *)
Inductive proc_result :=
| Completed (returncode : Z)
| SpawnError (e : exn).

(** [stdout_write line] is what writing [line] to [sys.stdout] raises, [None]
    when the write succeeds; [stdout_flushes] tells whether the interpreter
    can flush [sys.stdout] when it shuts down. *)
Record world := {
  getenv : string -> option string;
  json_loads : string -> value + string;
  py_repr : value -> string;
  strftime_now : nat -> string;
  registry : list string -> string -> get_result;
  spawn : list (list string) -> list string -> proc_result;
  stdout_write : string -> option exn;
  stdout_flushes : bool
}.

(** A row of the CSV file is the list of its fields; [csv_rows] is [None]
    while the file does not exist. *)
Definition row := list string.

Record state := {
  csv_rows : option (list row);
  stats_dir_exists : bool;
  log : list (level * string);
  stdout : list string;
  requests : list string;
  commands : list (list string);
  clock_reads : nat
}.

Definition with_csv_rows (st : state) (x : option (list row)) : state :=
  {| csv_rows := x; stats_dir_exists := stats_dir_exists st; log := log st;
     stdout := stdout st; requests := requests st; commands := commands st;
     clock_reads := clock_reads st |}.

Definition with_stats_dir (st : state) (x : bool) : state :=
  {| csv_rows := csv_rows st; stats_dir_exists := x; log := log st;
     stdout := stdout st; requests := requests st; commands := commands st;
     clock_reads := clock_reads st |}.

Definition with_log (st : state) (x : list (level * string)) : state :=
  {| csv_rows := csv_rows st; stats_dir_exists := stats_dir_exists st; log := x;
     stdout := stdout st; requests := requests st; commands := commands st;
     clock_reads := clock_reads st |}.

Definition with_stdout (st : state) (x : list string) : state :=
  {| csv_rows := csv_rows st; stats_dir_exists := stats_dir_exists st; log := log st;
     stdout := x; requests := requests st; commands := commands st;
     clock_reads := clock_reads st |}.

Definition with_requests (st : state) (x : list string) : state :=
  {| csv_rows := csv_rows st; stats_dir_exists := stats_dir_exists st; log := log st;
     stdout := stdout st; requests := x; commands := commands st;
     clock_reads := clock_reads st |}.

Definition with_commands (st : state) (x : list (list string)) : state :=
  {| csv_rows := csv_rows st; stats_dir_exists := stats_dir_exists st; log := log st;
     stdout := stdout st; requests := requests st; commands := x;
     clock_reads := clock_reads st |}.

Definition with_clock_reads (st : state) (x : nat) : state :=
  {| csv_rows := csv_rows st; stats_dir_exists := stats_dir_exists st; log := log st;
     stdout := stdout st; requests := requests st; commands := commands st;
     clock_reads := x |}.

(** ** Computations that change a state and may raise *)

Definition M (S A : Type) : Type := S -> (A + exn) * S.

Definition ret {S A} (a : A) : M S A := fun st => (inl a, st).

Definition raise {S A} (e : exn) : M S A := fun st => (inr e, st).

Definition bind {S A B} (c : M S A) (k : A -> M S B) : M S B :=
  fun st =>
    match c st with
    | (inl a, st') => k a st'
    | (inr e, st') => (inr e, st')
    end.

Declare Scope py_scope.
Delimit Scope py_scope with py.
Notation "x <- c ;; k" := (bind c (fun x => k))
  (at level 61, c at next level, right associativity) : py_scope.
Notation "c ;; k" := (bind c (fun _ => k))
  (at level 61, right associativity) : py_scope.
Open Scope py_scope.

(** [try: c  except E as e: handler], where [catches] decides
    [isinstance(e, E)]; the handler starts from the state the body left. *)
Definition try_except {S A} (c : M S A) (catches : exn -> bool)
    (handler : exn -> M S A) : M S A :=
  fun st =>
    match c st with
    | (inl a, st') => (inl a, st')
    | (inr e, st') => if catches e then handler e st' else (inr e, st')
    end.

(** [except Exception] *)
Definition any_exception (e : exn) : bool := true.

(** The outcome of an expression that changes nothing. *)
Definition eval {S A} (r : A + exn) : M S A :=
  match r with
  | inl a => ret a
  | inr e => raise e
  end.

(** [for x in l: body x] *)
Fixpoint for_each {S A} (l : list A) (body : A -> M S unit) : M S unit :=
  match l with
  | [] => ret tt
  | x :: rest => body x ;; for_each rest body
  end.

(** The truth value of what [os.getenv] returns: [None] and the empty string
    are false. *)
Definition env_truthy (o : option string) : bool :=
  match o with
  | Some s => negb (s =? "")
  | None => false
  end.

(** The dict [run] appends to [downloads_data]. *)
Record download := {
  d_username : value;
  d_repository : value;
  d_downloads : value
}.

(** The attributes [__init__] sets. *)
Record tracker := {
  projects : value;
  stats_dir : string;
  csv_file : string
}.

(** The local variables of [run] that outlive an exception of the loop body.
    [username] and [repository] are [None] until their first assignment. *)
Record frame := {
  username : option value;
  repository : option value;
  downloads_data : list download;
  errors : list string
}.

Definition header : row := ["Date"; "Repository"; "Downloads"].

(** ** The program *)

Section Program.

Variable w : world.

(** [str(v)], which is also what an f-string field shows.  The text of a
    list or a dict is left to [py_repr]. *)
Definition py_str (v : value) : string :=
  match v with
  | VNone => "None"
  | VBool b => if b then "True" else "False"
  | VInt z => str_int z
  | VFloat f => fl_str f
  | VStr s => s
  | _ => py_repr w v
  end.

(** What [csv.writer] writes for a field: nothing for [None], [str(v)]
    otherwise. *)
Definition csv_field (v : value) : string :=
  match v with
  | VNone => ""
  | _ => py_str v
  end.

(** *** Library calls *)

Definition os_getenv (name : string) : M state (option string) :=
  ret (getenv w name).

Definition logging_info (msg : string) : M state unit :=
  fun st => (inl tt, with_log st (log st ++ [(INFO, msg)])%list).

Definition logging_error (msg : string) : M state unit :=
  fun st => (inl tt, with_log st (log st ++ [(ERROR, msg)])%list).

(** [print(line)]: the line reaches standard output, or the write raises
    and nothing is printed. *)
Definition print (line : string) : M state unit :=
  fun st =>
    match stdout_write w line with
    | None => (inl tt, with_stdout st (stdout st ++ [line])%list)
    | Some e => (inr e, st)
    end.

(** [datetime.now().strftime("%Y-%m-%d")] *)
Definition datetime_now : M state string :=
  fun st => (inl (strftime_now w (clock_reads st)),
             with_clock_reads st (S (clock_reads st))).

(** [self.stats_dir.mkdir(exist_ok=True)] *)
Definition mkdir : M state unit :=
  fun st => (inl tt, with_stats_dir st true).

(** [requests.get(url, timeout=10)]: one request, answered by the registry. *)
Definition requests_get (url : string) : M state response :=
  fun st =>
    let st' := with_requests st (requests st ++ [url])%list in
    match registry w (requests st) url with
    | GetRaises e => (inr e, st')
    | GetResponse r => (inl r, st')
    end.

(** [response.raise_for_status()] *)
Definition raise_for_status (url : string) (r : response) : M state unit :=
  let code := status_code r in
  if ((400 <=? code) && (code <? 500))%Z then
    raise (RequestException HTTPError
             (str_int code ++ " Client Error: " ++ reason r ++ " for url: " ++ url))
  else if ((500 <=? code) && (code <? 600))%Z then
    raise (RequestException HTTPError
             (str_int code ++ " Server Error: " ++ reason r ++ " for url: " ++ url))
  else ret tt.

(** [subprocess.run(args)] *)
Definition subprocess_run (args : list string) : M state Z :=
  fun st =>
    let st' := with_commands st (commands st ++ [args])%list in
    match spawn w (commands st) args with
    | Completed rc => (inl rc, st')
    | SpawnError e => (inr e, st')
    end.

Definition path_exists : M state bool :=
  fun st => (inl (match csv_rows st with Some _ => true | None => false end), st).

(** [open(self.csv_file, 'w')]: the file is created or emptied. *)
Definition open_w : M state unit :=
  fun st => (inl tt, with_csv_rows st (Some [])).

(** [open(self.csv_file, 'a')]: the file is created when missing and kept as
    it is otherwise. *)
Definition open_a : M state unit :=
  fun st =>
    (inl tt, with_csv_rows st (Some (match csv_rows st with Some rows => rows | None => [] end))).

(** [writer.writerow(r)] on the open file: the row goes to its end. *)
Definition writerow (r : row) : M state unit :=
  fun st =>
    (inl tt,
     with_csv_rows st
       (Some (match csv_rows st with Some rows => rows | None => [] end ++ [r])%list)).

(** *** DockerStatsTracker *)

Definition _load_projects : M state value :=
  projects_json <- os_getenv "DOCKER_PROJECTS" ;;
  if negb (env_truthy projects_json) then
    raise (ValueError "DOCKER_PROJECTS environment variable is not set")
  else
    match json_loads w (match projects_json with Some s => s | None => "" end) with
    | inl projects =>
        if negb (truthy projects) then
          raise (ValueError "No projects defined in DOCKER_PROJECTS")
        else ret projects
    | inr msg => raise (ValueError ("Invalid JSON in DOCKER_PROJECTS: " ++ msg))
    end.

Definition __init__ : M state tracker :=
  projects <- _load_projects ;;
  mkdir ;;
  ret {| projects := projects;
         stats_dir := "stats";
         csv_file := "stats/docker_downloads.csv" |}.

Definition get_docker_downloads (username repository : value) : M state value :=
  let url := "https://hub.docker.com/v2/repositories/"
               ++ py_str username ++ "/" ++ py_str repository ++ "/" in
  try_except
    (response <- requests_get url ;;
     raise_for_status url response ;;
     data <- eval (body response) ;;
     eval (py_getitem data "pull_count"))
    is_request_exception
    (fun e =>
       logging_error ("Failed to fetch Docker Hub data for "
                        ++ py_str username ++ "/" ++ py_str repository
                        ++ ": " ++ str_exn e) ;;
       raise e).

(** The row [store_data] writes for one entry of [downloads_data]. *)
Definition ledger_row (date : string) (repo_data : download) : row :=
  [date;
   py_str (d_username repo_data) ++ "/" ++ py_str (d_repository repo_data);
   csv_field (d_downloads repo_data)].

Definition store_data (self : tracker) (date : string)
    (downloads_data : list download) : M state string :=
  present <- path_exists ;;
  (if negb present then
     open_w ;;
     writerow header ;;
     logging_info "Created new CSV file for tracking downloads"
   else ret tt) ;;
  open_a ;;
  for_each downloads_data (fun repo_data => writerow (ledger_row date repo_data)) ;;
  logging_info ("Stored download counts for "
                  ++ str_nat (length downloads_data) ++ " repositories") ;;
  ret (csv_file self).

Definition commit_and_push_changes (changed_file : string) : M state unit :=
  try_except
    (subprocess_run ["git"; "config"; "user.name"; "GitHub Actions Bot"] ;;
     subprocess_run ["git"; "config"; "user.email"; "actions@github.com"] ;;
     subprocess_run ["git"; "add"; changed_file] ;;
     date <- datetime_now ;;
     subprocess_run ["git"; "commit"; "-m"; "Update download stats for " ++ date] ;;
     subprocess_run ["git"; "push"] ;;
     logging_info "Successfully committed and pushed changes to GitHub")
    any_exception
    (fun e =>
       logging_error ("Failed to commit and push changes: " ++ str_exn e) ;;
       raise e).

(** *** run: the frame of local variables beside the state *)

Definition lift {A} (c : M state A) : M (state * frame) A :=
  fun sf =>
    match c (fst sf) with
    | (r, st') => (r, (st', snd sf))
    end.

Definition assign_username (v : value) : M (state * frame) unit :=
  fun sf =>
    (inl tt, (fst sf, {| username := Some v; repository := repository (snd sf);
                         downloads_data := downloads_data (snd sf);
                         errors := errors (snd sf) |})).

Definition assign_repository (v : value) : M (state * frame) unit :=
  fun sf =>
    (inl tt, (fst sf, {| username := username (snd sf); repository := Some v;
                         downloads_data := downloads_data (snd sf);
                         errors := errors (snd sf) |})).

(** [downloads_data.append(d)] *)
Definition downloads_data_append (d : download) : M (state * frame) unit :=
  fun sf =>
    (inl tt, (fst sf, {| username := username (snd sf); repository := repository (snd sf);
                         downloads_data := (downloads_data (snd sf) ++ [d])%list;
                         errors := errors (snd sf) |})).

(** [errors.append(msg)] *)
Definition errors_append (msg : string) : M (state * frame) unit :=
  fun sf =>
    (inl tt, (fst sf, {| username := username (snd sf); repository := repository (snd sf);
                         downloads_data := downloads_data (snd sf);
                         errors := (errors (snd sf) ++ [msg])%list |})).

(** Reading a local variable that was never assigned raises. *)
Definition read_local (name : string) (field : frame -> option value) :
    M (state * frame) value :=
  fun sf =>
    match field (snd sf) with
    | Some v => (inl v, sf)
    | None => (inr (UnboundLocalError name), sf)
    end.

Definition read_downloads_data : M (state * frame) (list download) :=
  fun sf => (inl (downloads_data (snd sf)), sf).

Definition read_errors : M (state * frame) (list string) :=
  fun sf => (inl (errors (snd sf)), sf).

(** The body of the [for] loop of [run], with its [try] and [except]. *)
Definition process_project (project : value) : M (state * frame) unit :=
  try_except
    (username <- eval (py_get project "username") ;;
     assign_username username ;;
     repository <- eval (py_get project "repository") ;;
     assign_repository repository ;;
     (if negb (truthy username) || negb (truthy repository) then
        raise (ValueError ("Invalid project configuration: " ++ py_str project))
      else ret tt) ;;
     lift (logging_info ("Processing " ++ py_str username ++ "/" ++ py_str repository)) ;;
     downloads <- lift (get_docker_downloads username repository) ;;
     downloads_data_append {| d_username := username;
                              d_repository := repository;
                              d_downloads := downloads |} ;;
     lift (print (nl ++ "Docker Hub Statistics for "
                     ++ py_str username ++ "/" ++ py_str repository)) ;;
     grouped <- eval (format_grouped downloads) ;;
     lift (print ("Current Downloads: " ++ grouped)))
    any_exception
    (fun e =>
       username <- read_local "username" username ;;
       repository <- read_local "repository" repository ;;
       let error_msg := "Error processing " ++ py_str username ++ "/"
                          ++ py_str repository ++ ": " ++ str_exn e in
       lift (logging_error error_msg) ;;
       errors_append error_msg).

(** The [for] loop of [run]: collect data for all repositories. *)
Definition collect (self : tracker) : M (state * frame) unit :=
  items <- eval (py_iter (projects self)) ;;
  for_each items process_project.

(** What follows the loop: store, publish, report. *)
Definition conclude (self : tracker) (date : string) : M (state * frame) unit :=
  downloads_data <- read_downloads_data ;;
  (if match downloads_data with [] => false | _ => true end then
     csv_file <- lift (store_data self date downloads_data) ;;
     flag <- lift (os_getenv "GITHUB_ACTIONS") ;;
     if env_truthy flag then
       try_except
         (lift (commit_and_push_changes csv_file))
         any_exception
         (fun e => errors_append ("Failed to commit changes: " ++ str_exn e))
     else ret tt
   else ret tt) ;;
  errors <- read_errors ;;
  if match errors with [] => false | _ => true end then
    raise (Exception (String.concat nl errors))
  else lift (logging_info "Script completed successfully").

Definition initial_frame : frame :=
  {| username := None; repository := None; downloads_data := []; errors := [] |}.

Definition run_body (self : tracker) : M (state * frame) unit :=
  date <- lift datetime_now ;;
  collect self ;;
  conclude self date.

Definition run (self : tracker) : M state unit :=
  fun st =>
    match run_body self (st, initial_frame) with
    | (r, (st', _)) => (r, st')
    end.

(** The [if __name__ == "__main__"] block. *)
Definition main : M state unit :=
  try_except
    (tracker <- __init__ ;;
     run tracker)
    any_exception
    (fun e =>
       logging_error ("Application error: " ++ str_exn e) ;;
       print (nl ++ "Error: " ++ str_exn e)).

End Program.


(** ** Vocabulary of the statements *)

(** The count the registry's answer yields: a response whose status
    [raise_for_status] accepts and whose JSON body has ["pull_count"]. *)
Definition fetched (g : get_result) : option value :=
  match g with
  | GetRaises _ => None
  | GetResponse r =>
      if ((400 <=? status_code r) && (status_code r <? 600))%Z then None
      else
        match body r with
        | inl data =>
            match py_getitem data "pull_count" with
            | inl v => Some v
            | inr _ => None
            end
        | inr _ => None
        end
  end.

(** The number of successful fetches among the requests [urls], issued in
    this order after the requests [history]. *)
Fixpoint count_fetched (w : world) (history urls : list string) : nat :=
  match urls with
  | [] => 0
  | url :: rest =>
      (match fetched (registry w history url) with Some _ => 1 | None => 0 end
       + count_fetched w (history ++ [url]) rest)%nat
  end.

(** The answers of the registry to the requests [urls], issued in this order
    after [history], when every one of them yields a count. *)
Fixpoint fetched_all (w : world) (history urls : list string) : option (list value) :=
  match urls with
  | [] => Some []
  | url :: rest =>
      match fetched (registry w history url), fetched_all w (history ++ [url]) rest with
      | Some v, Some vs => Some (v :: vs)
      | _, _ => None
      end
  end.

(** The URL [get_docker_downloads] requests. *)
Definition repository_url (w : world) (username repository : value) : string :=
  "https://hub.docker.com/v2/repositories/"
    ++ py_str w username ++ "/" ++ py_str w repository ++ "/".

(** The value of a key of a configured entry, [None] when it is missing. *)
Definition field (project : value) (key : string) : value :=
  match py_get project key with
  | inl v => v
  | inr _ => VNone
  end.

(** The URL requested for a configured entry. *)
Definition entry_url (w : world) (project : value) : string :=
  repository_url w (field project "username") (field project "repository").

(** An entry [run] accepts: a dict whose ["username"] and ["repository"] are
    both true, the negation of the test that raises "Invalid project
    configuration". *)
Definition valid_project (project : value) : bool :=
  match project with
  | VDict _ => truthy (field project "username") && truthy (field project "repository")
  | _ => false
  end.

(** The [downloads_data] entry of a configured entry and its count. *)
Definition download_of (pc : value * value) : download :=
  {| d_username := field (fst pc) "username";
     d_repository := field (fst pc) "repository";
     d_downloads := snd pc |}.

(** The tracker [__init__] builds for the value [projects]. *)
Definition tracker_of (projects : value) : tracker :=
  {| projects := projects; stats_dir := "stats"; csv_file := "stats/docker_downloads.csv" |}.

(** The rows of the file before a write, the header standing for a file that
    [store_data] has to create. *)
Definition ledger_before (st : state) : list row :=
  match csv_rows st with
  | Some rows => rows
  | None => [header]
  end.

(** The state after one more request, log entry or printed line. *)
Definition after_request (st : state) (url : string) : state :=
  with_requests st (requests st ++ [url])%list.

Definition after_error_log (st : state) (msg : string) : state :=
  with_log st (log st ++ [(ERROR, msg)])%list.

Definition after_info_log (st : state) (msg : string) : state :=
  with_log st (log st ++ [(INFO, msg)])%list.

Definition after_print (st : state) (line : string) : state :=
  with_stdout st (stdout st ++ [line])%list.

(** The entry [get_docker_downloads] logs for the exception [e]. *)
Definition fetch_failure_msg (w : world) (username repository : value) (e : exn) :
    string :=
  "Failed to fetch Docker Hub data for "
    ++ py_str w username ++ "/" ++ py_str w repository ++ ": " ++ str_exn e.

(** The log entries of one [store_data] call. *)
Definition store_log (st : state) (n : nat) : list (level * string) :=
  ((match csv_rows st with
    | Some _ => []
    | None => [(INFO, "Created new CSV file for tracking downloads")]
    end)
   ++ [(INFO, ("Stored download counts for " ++ str_nat n ++ " repositories")%string)])%list.

(** The message the [except] clause of the loop builds. *)
Definition error_msg (w : world) (u r : value) (e : exn) : string :=
  "Error processing " ++ py_str w u ++ "/" ++ py_str w r ++ ": " ++ str_exn e.

(** The frame once the loop body has assigned [username] and [repository]. *)
Definition entered (f : frame) (u r : value) : frame :=
  {| username := Some u; repository := Some r;
     downloads_data := downloads_data f; errors := errors f |}.

(** The frame after [downloads_data.append(d)] and after
    [errors.append(msg)]. *)
Definition with_download (f : frame) (d : download) : frame :=
  {| username := username f; repository := repository f;
     downloads_data := (downloads_data f ++ [d])%list; errors := errors f |}.

Definition with_error (f : frame) (msg : string) : frame :=
  {| username := username f; repository := repository f;
     downloads_data := downloads_data f; errors := (errors f ++ [msg])%list |}.

(** The outcome of the [except] clause when it names the repository [u]/[r]:
    the message is logged, recorded, and the loop goes on. *)
Definition recorded (w : world) (u r : value) (e : exn) (st : state) (f : frame) :
    (unit + exn) * (state * frame) :=
  (inl tt, (after_error_log st (error_msg w u r e), with_error f (error_msg w u r e))).

(** The state in which the loop of [run] starts: the clock was read once. *)
Definition at_loop_start (st : state) : state * frame :=
  (with_clock_reads st (S (clock_reads st)), initial_frame).

(** The publish step as [run] performs it on the state [store_data] left:
    the messages it adds to [errors] and the state it reaches. *)
Definition published (w : world) (self : tracker) (st : state) : list string * state :=
  if env_truthy (getenv w "GITHUB_ACTIONS") then
    match commit_and_push_changes w (csv_file self) st with
    | (inl _, st') => ([], st')
    | (inr e, st') => (["Failed to commit changes: " ++ str_exn e], st')
    end
  else ([], st).

(** The end of [run]: the aggregate exception, or the closing log entry. *)
Definition report (errors : list string) (st : state) : (unit + exn) * state :=
  match errors with
  | [] => (inl tt, with_log st (log st ++ [(INFO, "Script completed successfully")])%list)
  | _ :: _ => (inr (Exception (String.concat nl errors)), st)
  end.


(** Both names the [except] clause of the loop reads are assigned. *)
Definition bound (f : frame) : Prop :=
  username f <> None /\ repository f <> None.

(** The publish step was entered: its first command was spawned. *)
Definition publish_attempted (before after : state) : Prop :=
  exists more,
    commands after
    = (commands before ++ ["git"; "config"; "user.name"; "GitHub Actions Bot"] :: more)%list.

(** At least one row was added to what the ledger held (or to the header of
    a new ledger). *)
Definition rows_written (before after : state) : Prop :=
  exists r rows, csv_rows after = Some (ledger_before before ++ r :: rows)%list.

(** The reading of C6 that the code does not meet: every exception that
    leaves [get_docker_downloads] was preceded by an error entry in the log. *)
Definition every_fetch_failure_is_logged : Prop :=
  forall (w : world) (u r : value) (st : state) (e : exn) (st' : state),
    get_docker_downloads w u r st = (inr e, st') ->
    exists msg, log st' = (log st ++ [(ERROR, msg)])%list.

(** Two more readings of C6 that the code does not meet: every response
    whose status is not a success status (200 to 299) makes the fetch fail;
    and the exception that leaves the fetch is never the one the request
    raised, but another that wraps it. *)
Definition every_non_success_status_fails : Prop :=
  forall (w : world) (u r : value) (st : state) (resp : response),
    registry w (requests st) (repository_url w u r) = GetResponse resp ->
    ~ (200 <= status_code resp < 300)%Z ->
    exists e, fst (get_docker_downloads w u r st) = inr e.

Definition every_fetch_failure_is_wrapped : Prop :=
  forall (w : world) (u r : value) (st : state) (e e' : exn) (st' : state),
    registry w (requests st) (repository_url w u r) = GetRaises e ->
    get_docker_downloads w u r st = (inr e', st') ->
    e' <> e.


(** The computation [c] leaves the component [f] of the state as it was,
    whether it returns or raises. *)
Definition keeps {S A X} (f : S -> X) (c : M S A) : Prop :=
  forall st, f (snd (c st)) = f st.

(** The five commands of the publish step, in the order they are spawned. *)
Definition publish_commands (changed_file date : string) : list (list string) :=
  [["git"; "config"; "user.name"; "GitHub Actions Bot"];
   ["git"; "config"; "user.email"; "actions@github.com"];
   ["git"; "add"; changed_file];
   ["git"; "commit"; "-m"; "Update download stats for " ++ date];
   ["git"; "push"]].

(** [isinstance(v, dict)] *)
Definition is_dict (v : value) : bool :=
  match v with
  | VDict _ => true
  | _ => false
  end.

(** The text "username/repository" of a configured entry. *)
Definition entry_name (w : world) (project : value) : string :=
  py_str w (field project "username") ++ "/" ++ py_str w (field project "repository").

(** The two lines [run] prints for an entry whose count is the integer [z]. *)
Definition stat_lines (w : world) (pz : value * Z) : list string :=
  [nl ++ "Docker Hub Statistics for " ++ entry_name w (fst pz);
   "Current Downloads: " ++ group_int (snd pz)].

(** Every message in [errors] is the text of an ERROR entry of the log. *)
Definition errors_logged (sf : state * frame) : Prop :=
  Forall (fun msg => In (ERROR, msg) (log (fst sf))) (errors (snd sf)).

(** ** Concrete worlds *)

Module Demo.

(** The double quote character. *)
Definition dq : string := String (ascii_of_nat 34) EmptyString.

(** A JSON string literal. *)
Definition js (s : string) : string := dq ++ s ++ dq.

(** The JSON text of one configured entry. *)
Definition entry_json (username repository : string) : string :=
  "{" ++ js "username" ++ ": " ++ js username ++ ", "
      ++ js "repository" ++ ": " ++ js repository ++ "}".

(** What [json.loads] makes of it. *)
Definition entry (username repository : string) : value :=
  VDict [("username", VStr username); ("repository", VStr repository)].

(** [[{"username": "acme", "repository": "app"}, {"username": "acme", "repository": "db"}]] *)
Definition two_repos_json : string :=
  "[" ++ entry_json "acme" "app" ++ ", " ++ entry_json "acme" "db" ++ "]".

(** [["x", {"username": "acme", "repository": "app"}]] *)
Definition string_first_json : string :=
  "[" ++ js "x" ++ ", " ++ entry_json "acme" "app" ++ "]".

(** [[{"username": "acme", "repository": "app"}, "x"]] *)
Definition string_last_json : string :=
  "[" ++ entry_json "acme" "app" ++ ", " ++ js "x" ++ "]".

(** [json.loads] on the texts above; any other text is taken as malformed. *)
Definition loads (s : string) : value + string :=
  if s =? two_repos_json then inl (VList [entry "acme" "app"; entry "acme" "db"])
  else if s =? string_first_json then inl (VList [VStr "x"; entry "acme" "app"])
  else if s =? string_last_json then inl (VList [entry "acme" "app"; VStr "x"])
  else if s =? "[]" then inl (VList [])
  else inr "Expecting value: line 1 column 1 (char 0)".

(** A 200 response whose body holds the count. *)
Definition ok_response (pull_count : Z) : get_result :=
  GetResponse {| status_code := 200; reason := "OK";
                 body := inl (VDict [("name", VStr "x"); ("pull_count", VInt pull_count)]) |}.

(** A registry that knows acme/app and acme/db and answers 404 otherwise. *)
Definition hub (history : list string) (url : string) : get_result :=
  if url =? "https://hub.docker.com/v2/repositories/acme/app/" then ok_response 42
  else if url =? "https://hub.docker.com/v2/repositories/acme/db/" then ok_response 1234567
  else GetResponse {| status_code := 404; reason := "Not Found";
                      body := inl (VDict [("message", VStr "object not found")]) |}.

(** A registry that answers 302 without a target, so that requests hands
    the response back, with a count in its body. *)
Definition hub_redirect (history : list string) (url : string) : get_result :=
  GetResponse {| status_code := 302; reason := "Found";
                 body := inl (VDict [("pull_count", VInt 7)]) |}.

(** A registry whose answers lack ["pull_count"]. *)
Definition hub_without_count (history : list string) (url : string) : get_result :=
  GetResponse {| status_code := 200; reason := "OK"; body := inl (VDict []) |}.

(** A registry that cannot be reached in time. *)
Definition hub_timeout (history : list string) (url : string) : get_result :=
  GetRaises (RequestException Timeout
               "HTTPSConnectionPool(host='hub.docker.com', port=443): Read timed out. (read timeout=10)").

(** Every git command runs and succeeds. *)
Definition git_ok (history : list (list string)) (args : list string) : proc_result :=
  Completed 0.

(** [git push] runs and exits with status 1; the other commands succeed. *)
Definition git_push_rejected (history : list (list string)) (args : list string) :
    proc_result :=
  match args with
  | ["git"; "push"] => Completed 1
  | _ => Completed 0
  end.

(** A registry that answers with a null count. *)
Definition hub_null_count (history : list string) (url : string) : get_result :=
  GetResponse {| status_code := 200; reason := "OK";
                 body := inl (VDict [("pull_count", VNone)]) |}.

(** Every git command runs and exits with status 128. *)
Definition git_failing (history : list (list string)) (args : list string) : proc_result :=
  Completed 128.

(** There is no git executable. *)
Definition git_missing (history : list (list string)) (args : list string) : proc_result :=
  SpawnError (OSError "[Errno 2] No such file or directory: 'git'").

(** A Python string holds a lone surrogate (U+D800 to U+DFFF) when its
    bytes hold 237 followed by a byte from 160 on: the three-byte form a
    surrogate takes, which no valid UTF-8 text contains. *)
Fixpoint has_surrogate (s : string) : bool :=
  match s with
  | EmptyString => false
  | String c rest =>
      match rest with
      | String d _ =>
          ((nat_of_ascii c =? 237)%nat && (160 <=? nat_of_ascii d)%nat)
          || has_surrogate rest
      | EmptyString => false
      end
  end.

(** Standard output encoded as UTF-8 with strict error handling: writing a
    text that holds a lone surrogate raises. *)
Definition utf8_stdout (line : string) : option exn :=
  if has_surrogate line then
    Some (UnicodeEncodeError "'utf-8' codec can't encode character: surrogates not allowed")
  else None.

(** The world with the given values of DOCKER_PROJECTS and GITHUB_ACTIONS,
    registry and git, on 1 January 2024, with standard output in UTF-8. *)
Definition make (projects actions : option string)
    (hub : list string -> string -> get_result)
    (git : list (list string) -> list string -> proc_result) : world :=
  {| getenv := fun name =>
       if name =? "DOCKER_PROJECTS" then projects
       else if name =? "GITHUB_ACTIONS" then actions
       else None;
     json_loads := loads;
     py_repr := fun _ => "<repr>";
     strftime_now := fun _ => "2024-01-01";
     registry := hub;
     spawn := git;
     stdout_write := utf8_stdout;
     stdout_flushes := true |}.

(** The world [make (Some two_repos_json) (Some "true") hub git_ok] when
    midnight passes between the first reading of the clock and the second. *)
Definition over_midnight : world :=
  {| getenv := getenv (make (Some two_repos_json) (Some "true") hub git_ok);
     json_loads := loads;
     py_repr := fun _ => "<repr>";
     strftime_now := fun n => match n with 0 => "2024-01-01" | _ => "2024-01-02" end;
     registry := hub;
     spawn := git_ok;
     stdout_write := utf8_stdout;
     stdout_flushes := true |}.

(** The one character U+D800, a lone surrogate, in the three bytes a Python
    string holding it takes. *)
Definition lone_surrogate : string :=
  String (ascii_of_nat 237) (String (ascii_of_nat 160) (String (ascii_of_nat 128) EmptyString)).




(** A machine on which nothing has happened yet and no ledger exists. *)
Definition fresh : state :=
  {| csv_rows := None; stats_dir_exists := false; log := []; stdout := [];
     requests := []; commands := []; clock_reads := 0 |}.

(** A machine whose ledger holds the header and one earlier row. *)
Definition used : state :=
  {| csv_rows := Some [header; ["2023-12-31"; "acme/app"; "40"]];
     stats_dir_exists := true; log := []; stdout := [];
     requests := []; commands := []; clock_reads := 0 |}.

End Demo.

(** ** Lemmas *)

(** *** What a computation leaves alone *)

Lemma keeps_ret {S A X} (f : S -> X) (a : A) : keeps f (ret a).
Proof. intro st. reflexivity. Qed.

Lemma keeps_raise {S A X} (f : S -> X) (e : exn) : keeps f (@raise S A e).
Proof. intro st. reflexivity. Qed.

Lemma keeps_eval {S A X} (f : S -> X) (r : A + exn) : keeps f (@eval S A r).
Proof. destruct r; intro st; reflexivity. Qed.

Lemma keeps_bind {S A B X} (f : S -> X) (c : M S A) (k : A -> M S B) :
  keeps f c -> (forall a, keeps f (k a)) -> keeps f (bind c k).
Proof.
  intros Hc Hk st. unfold bind.
  specialize (Hc st). destruct (c st) as [[a | e] st']; simpl in *.
  - rewrite Hk. exact Hc.
  - exact Hc.
Qed.

Lemma keeps_try_except {S A X} (f : S -> X) (c : M S A) catches handler :
  keeps f c -> (forall e, keeps f (handler e)) -> keeps f (try_except c catches handler).
Proof.
  intros Hc Hh st. unfold try_except.
  specialize (Hc st). destruct (c st) as [[a | e] st']; simpl in *.
  - exact Hc.
  - destruct (catches e); simpl.
    + rewrite Hh. exact Hc.
    + exact Hc.
Qed.

Lemma keeps_for_each {S A X} (f : S -> X) (l : list A) (body : A -> M S unit) :
  (forall x, keeps f (body x)) -> keeps f (for_each l body).
Proof.
  intro Hb. induction l as [| x rest IH]; simpl.
  - apply keeps_ret.
  - apply keeps_bind; [apply Hb | intro; exact IH].
Qed.

Lemma keeps_lift {A X} (g : state -> X) (c : M state A) :
  keeps g c -> keeps (fun sf : state * frame => g (fst sf)) (lift c).
Proof.
  intros Hc [st fr]. unfold lift. simpl.
  specialize (Hc st). destruct (c st) as [r st']. exact Hc.
Qed.

Lemma keeps_if {S A X} (f : S -> X) (b : bool) (c1 c2 : M S A) :
  keeps f c1 -> keeps f c2 -> keeps f (if b then c1 else c2).
Proof. destruct b; auto. Qed.

(** Splits a computation along its structure; what is left are the library
    calls. *)
Ltac keeps_split :=
  repeat
    match goal with
    | |- keeps _ (ret _) => apply keeps_ret
    | |- keeps _ (raise _) => apply keeps_raise
    | |- keeps _ (eval _) => apply keeps_eval
    | |- keeps _ (if _ then _ else _) => apply keeps_if
    | |- keeps _ (bind _ _) => apply keeps_bind; [| intro]
    | |- keeps _ (try_except _ _ _) => apply keeps_try_except; [| intro]
    | |- keeps _ (for_each _ _) => apply keeps_for_each; intro
    | |- keeps _ (lift _) => apply (keeps_lift _)
    end.

Ltac keeps_call := try (intro; reflexivity).

Section Frames.

Variable w : world.

Lemma _load_projects_state (st : state) : snd (_load_projects w st) = st.
Proof.
  unfold _load_projects, os_getenv, bind, ret, raise. simpl.
  destruct (negb (env_truthy (getenv w "DOCKER_PROJECTS"))); [reflexivity |].
  destruct (json_loads w _) as [v | msg]; [| reflexivity].
  destruct (negb (truthy v)); reflexivity.
Qed.

Lemma __init___keeps_csv_rows : keeps csv_rows (__init__ w).
Proof.
  unfold __init__. keeps_split; keeps_call.
  intro st. rewrite _load_projects_state. reflexivity.
Qed.

Lemma __init___keeps_requests : keeps requests (__init__ w).
Proof.
  unfold __init__. keeps_split; keeps_call.
  intro st. rewrite _load_projects_state. reflexivity.
Qed.

Lemma __init___keeps_commands : keeps commands (__init__ w).
Proof.
  unfold __init__. keeps_split; keeps_call.
  intro st. rewrite _load_projects_state. reflexivity.
Qed.

Lemma __init___keeps_clock_reads : keeps clock_reads (__init__ w).
Proof.
  unfold __init__. keeps_split; keeps_call.
  intro st. rewrite _load_projects_state. reflexivity.
Qed.

Lemma requests_get_keeps {X} (f : state -> X) url :
  (forall st x, f (with_requests st x) = f st) -> keeps f (requests_get w url).
Proof.
  intros Hf st. unfold requests_get.
  destruct (registry w (requests st) url); simpl; apply Hf.
Qed.

Lemma raise_for_status_keeps {X} (f : state -> X) url r :
  keeps f (raise_for_status url r).
Proof. unfold raise_for_status. keeps_split. Qed.

Lemma print_keeps {X} (f : state -> X) line :
  (forall st x, f (with_stdout st x) = f st) -> keeps f (print w line).
Proof.
  intros Hf st. unfold print.
  destruct (stdout_write w line); [reflexivity | apply Hf].
Qed.

Lemma subprocess_run_keeps {X} (f : state -> X) args :
  (forall st x, f (with_commands st x) = f st) -> keeps f (subprocess_run w args).
Proof.
  intros Hf st. unfold subprocess_run.
  destruct (spawn w (commands st) args); simpl; apply Hf.
Qed.

Lemma get_docker_downloads_keeps {X} (f : state -> X) u r :
  (forall st x, f (with_requests st x) = f st) ->
  (forall st x, f (with_log st x) = f st) ->
  keeps f (get_docker_downloads w u r).
Proof.
  intros Hr Hl. unfold get_docker_downloads. keeps_split.
  - apply requests_get_keeps, Hr.
  - apply raise_for_status_keeps.
  - intro st. apply Hl.
Qed.

Lemma commit_and_push_changes_keeps {X} (f : state -> X) changed_file :
  (forall st x, f (with_commands st x) = f st) ->
  (forall st x, f (with_log st x) = f st) ->
  (forall st x, f (with_clock_reads st x) = f st) ->
  keeps f (commit_and_push_changes w changed_file).
Proof.
  intros Hc Hl Ht. unfold commit_and_push_changes.
  keeps_split; try (apply subprocess_run_keeps, Hc).
  - intro st. apply Ht.
  - intro st. apply Hl.
  - intro st. apply Hl.
Qed.

End Frames.

(** *** get_docker_downloads *)

Section Fetch.

Variable w : world.

Lemma raise_for_status_cases (url : string) (r : response) (st : state) :
  (((400 <=? status_code r) && (status_code r <? 600))%Z = false /\
   raise_for_status url r st = (inl tt, st)) \/
  (((400 <=? status_code r) && (status_code r <? 600))%Z = true /\
   exists msg, raise_for_status url r st = (inr (RequestException HTTPError msg), st)).
Proof.
  unfold raise_for_status, raise, ret.
  destruct (Z.leb_spec 400 (status_code r)); destruct (Z.ltb_spec (status_code r) 500);
    destruct (Z.leb_spec 500 (status_code r)); destruct (Z.ltb_spec (status_code r) 600);
    simpl; try lia; eauto.
Qed.

(** Unfolds [get_docker_downloads] down to the registry's answer. *)
Ltac open_fetch :=
  unfold get_docker_downloads, repository_url, try_except, bind, requests_get,
    eval, raise, ret, logging_error;
  set (url := "https://hub.docker.com/v2/repositories/" ++ _).

(** A request the registry answers with a count: the count is returned and
    nothing is logged. *)
Lemma get_docker_downloads_fetched (u r v : value) (st : state) :
  fetched (registry w (requests st) (repository_url w u r)) = Some v ->
  get_docker_downloads w u r st = (inl v, after_request st (repository_url w u r)).
Proof.
  unfold fetched. open_fetch.
  destruct (registry w (requests st) url) as [e | resp]; [discriminate |].
  destruct (raise_for_status_cases url resp (after_request st url)) as [[Hs Hr] | [Hs [msg Hr]]];
    rewrite Hs; [| discriminate].
  unfold after_request in Hr. rewrite Hr.
  destruct (body resp) as [data | e]; [| discriminate].
  destruct (py_getitem data "pull_count") as [v' | e]; [| discriminate].
  intro H. injection H as ->. reflexivity.
Qed.

(** Any other request ends in an exception. *)
Lemma get_docker_downloads_not_fetched (u r : value) (st : state) :
  fetched (registry w (requests st) (repository_url w u r)) = None ->
  exists e, fst (get_docker_downloads w u r st) = inr e.
Proof.
  unfold fetched. open_fetch.
  destruct (registry w (requests st) url) as [e | resp].
  - intros _. exists e. destruct (is_request_exception e); reflexivity.
  - destruct (raise_for_status_cases url resp (after_request st url)) as [[Hs Hr] | [Hs [msg Hr]]];
      rewrite Hs; unfold after_request in Hr; rewrite Hr.
    + destruct (body resp) as [data | e].
      * destruct (py_getitem data "pull_count") as [v' | e]; [discriminate |].
        intros _. exists e. destruct (is_request_exception e); reflexivity.
      * intros _. exists e. destruct (is_request_exception e); reflexivity.
    + intros _. eexists. reflexivity.
Qed.

(** Whatever the outcome, exactly one request is issued. *)
Lemma get_docker_downloads_requests (u r : value) (st : state) :
  requests (snd (get_docker_downloads w u r st))
  = (requests st ++ [repository_url w u r])%list.
Proof.
  open_fetch.
  destruct (registry w (requests st) url) as [e | resp].
  - destruct (is_request_exception e); reflexivity.
  - destruct (raise_for_status_cases url resp (after_request st url)) as [[Hs Hr] | [Hs [msg Hr]]];
      unfold after_request in Hr; rewrite Hr.
    + destruct (body resp) as [data | e].
      * destruct (py_getitem data "pull_count") as [v' | e]; [reflexivity |].
        destruct (is_request_exception e); reflexivity.
      * destruct (is_request_exception e); reflexivity.
    + reflexivity.
Qed.

End Fetch.

(** *** store_data *)

Section Store.

Variable w : world.

Lemma for_each_writerow {A} (f : A -> row) (data : list A) :
  forall (st : state) (rows : list row),
    csv_rows st = Some rows ->
    for_each data (fun d => writerow (f d)) st
    = (inl tt, with_csv_rows st (Some (rows ++ map f data)%list)).
Proof.
  induction data as [| d rest IH]; intros st rows Hrows; simpl.
  - rewrite app_nil_r, <- Hrows. destruct st; reflexivity.
  - unfold bind at 1. unfold writerow at 1. rewrite Hrows.
    rewrite (IH _ (rows ++ [f d])%list) by reflexivity.
    rewrite <- app_assoc. reflexivity.
Qed.

(** [store_data] in one equation: the file keeps what it held (or starts with
    the header when it did not exist) and gains one row per entry, in order. *)
Lemma store_data_result (self : tracker) (date : string) (data : list download)
    (st : state) :
  store_data w self date data st
  = (inl (csv_file self),
     with_log
       (with_csv_rows st (Some (ledger_before st ++ map (ledger_row w date) data)%list))
       (log st ++ store_log st (length data))%list).
Proof.
  unfold store_data, ledger_before, store_log.
  destruct st as [rows dir lg out reqs cmds clk].
  destruct rows as [rows |]; unfold bind at 1; unfold path_exists; cbn [csv_rows negb].
  - unfold bind at 1. unfold ret at 1.
    unfold bind at 1. unfold open_a. cbn [csv_rows].
    unfold bind at 1.
    rewrite (for_each_writerow _ _ _ rows) by reflexivity.
    reflexivity.
  - unfold bind at 1. unfold bind at 1. unfold open_w at 1.
    unfold bind at 1. unfold writerow at 1. cbn [csv_rows].
    unfold logging_info at 1.
    unfold bind at 1. unfold open_a. cbn [csv_rows with_csv_rows with_log].
    unfold bind at 1.
    rewrite (for_each_writerow _ _ _ [header]) by reflexivity.
    unfold bind, logging_info, ret. cbn.
    rewrite <- app_assoc. reflexivity.
Qed.

End Store.

(** *** run in terms of its loop *)

Section Run.

Variable w : world.

(** [run] in terms of what its loop collected. *)
Lemma run_eq (self : tracker) (st : state) :
  run w self st =
  match collect w self (at_loop_start st) with
  | (inr e, (st1, _)) => (inr e, st1)
  | (inl _, (st1, f1)) =>
      match downloads_data f1 with
      | [] => report (errors f1) st1
      | _ :: _ =>
          let date := strftime_now w (clock_reads st) in
          let st2 := snd (store_data w self date (downloads_data f1) st1) in
          let (extra, st3) := published w self st2 in
          report (errors f1 ++ extra)%list st3
      end
  end.
Proof.
  unfold run, run_body, at_loop_start.
  unfold bind at 1. unfold lift at 1. unfold datetime_now at 1. cbn [fst snd].
  unfold bind at 1.
  destruct (collect w self _) as [[[] | e] [st1 f1]]; [| reflexivity].
  unfold conclude. unfold bind at 1. unfold read_downloads_data at 1. cbn [fst snd].
  destruct (downloads_data f1) as [| d ds] eqn:Hdd.
  - unfold bind at 1. unfold ret at 1. unfold bind at 1. unfold read_errors at 1.
    cbn [fst snd].
    destruct (errors f1); reflexivity.
  - unfold bind at 1. unfold bind at 1. unfold lift at 1. cbn [fst snd].
    rewrite store_data_result. cbn [snd].
    set (st2 := with_log _ _).
    unfold bind at 1. unfold lift at 1. unfold os_getenv, ret at 1. cbn [fst snd].
    unfold published.
    destruct (env_truthy (getenv w "GITHUB_ACTIONS")).
    + unfold try_except, lift. cbn [fst snd].
      destruct (commit_and_push_changes w (csv_file self) st2) as [[[] | e] st3].
      * unfold bind, read_errors. cbn [fst snd errors].
        rewrite app_nil_r. destruct (errors f1); reflexivity.
      * unfold any_exception, errors_append, bind, read_errors. cbn [fst snd errors].
        destruct (errors f1); reflexivity.
    + unfold bind, ret, read_errors. cbn [fst snd].
      rewrite app_nil_r. destruct (errors f1); reflexivity.
Qed.

End Run.

(** *** The loop of run *)

Section Loop.

Variable w : world.

Lemma process_project_keeps {X} (g : state -> X) (project : value) :
  (forall st x, g (with_requests st x) = g st) ->
  (forall st x, g (with_log st x) = g st) ->
  (forall st x, g (with_stdout st x) = g st) ->
  keeps (fun sf : state * frame => g (fst sf)) (process_project w project).
Proof.
  intros Hr Hl Ho. unfold process_project. keeps_split;
    try (intro; reflexivity);
    try (apply get_docker_downloads_keeps; assumption);
    try (apply print_keeps; assumption);
    try (intro st; cbn; solve [apply Hl | apply Ho]).
  - intros [st f]. unfold read_local. cbn. destruct (username f); reflexivity.
  - intros [st f]. unfold read_local. cbn. destruct (repository f); reflexivity.
Qed.

Lemma collect_keeps {X} (g : state -> X) (self : tracker) :
  (forall st x, g (with_requests st x) = g st) ->
  (forall st x, g (with_log st x) = g st) ->
  (forall st x, g (with_stdout st x) = g st) ->
  keeps (fun sf : state * frame => g (fst sf)) (collect w self).
Proof.
  intros Hr Hl Ho. unfold collect. keeps_split.
  apply process_project_keeps; assumption.
Qed.

Lemma count_fetched_app (history urls1 urls2 : list string) :
  count_fetched w history (urls1 ++ urls2)
  = count_fetched w history urls1 + count_fetched w (history ++ urls1) urls2.
Proof.
  revert history. induction urls1 as [| url rest IH]; intro history; simpl.
  - rewrite app_nil_r. reflexivity.
  - rewrite IH, <- app_assoc. simpl. lia.
Qed.

Lemma handler_bound (u r : value) (e : exn) (st : state) (f : frame) :
  username f = Some u -> repository f = Some r ->
  (username <- read_local "username" username ;;
   repository <- read_local "repository" repository ;;
   lift (logging_error ("Error processing " ++ py_str w username ++ "/"
                          ++ py_str w repository ++ ": " ++ str_exn e)) ;;
   errors_append ("Error processing " ++ py_str w username ++ "/"
                    ++ py_str w repository ++ ": " ++ str_exn e)) (st, f)
  = recorded w u r e st f.
Proof.
  intros Hu Hr.
  unfold bind at 1. unfold read_local at 1. cbn [fst snd]. rewrite Hu.
  unfold bind at 1. unfold read_local at 1. cbn [fst snd]. rewrite Hr.
  reflexivity.
Qed.

Lemma process_project_not_dict (project : value) (e : exn) (st : state) (f : frame) :
  py_get project "username" = inr e ->
  process_project w project (st, f) =
  match username f, repository f with
  | None, _ => (inr (UnboundLocalError "username"), (st, f))
  | Some _, None => (inr (UnboundLocalError "repository"), (st, f))
  | Some u, Some r => recorded w u r e st f
  end.
Proof.
  intro Hg. unfold process_project. unfold try_except.
  unfold bind at 1. rewrite Hg. unfold eval at 1. unfold raise at 1.
  unfold any_exception.
  destruct (username f) as [u |] eqn:Hu; [destruct (repository f) as [r |] eqn:Hr |].
  - apply handler_bound; assumption.
  - unfold bind at 1. unfold read_local at 1. cbn [fst snd]. rewrite Hu.
    unfold bind at 1. unfold read_local at 1. cbn [fst snd]. rewrite Hr. reflexivity.
  - unfold bind at 1. unfold read_local at 1. cbn [fst snd]. rewrite Hu. reflexivity.
Qed.

(** The loop body on a dict, outcome by outcome. *)
Lemma process_project_dict (kvs : list (string * value)) (st : state) (f : frame) :
  let u := field (VDict kvs) "username" in
  let r := field (VDict kvs) "repository" in
  let f1 := entered f u r in
  process_project w (VDict kvs) (st, f) =
  if negb (truthy u) || negb (truthy r) then
    recorded w u r
      (ValueError ("Invalid project configuration: " ++ py_str w (VDict kvs))) st f1
  else
    match get_docker_downloads w u r
            (after_info_log st ("Processing " ++ py_str w u ++ "/" ++ py_str w r))
    with
    | (inr e, st2) => recorded w u r e st2 f1
    | (inl v, st2) =>
        let f2 := with_download f1 {| d_username := u; d_repository := r; d_downloads := v |} in
        let line := nl ++ "Docker Hub Statistics for " ++ py_str w u ++ "/" ++ py_str w r in
        match stdout_write w line with
        | Some e => recorded w u r e st2 f2
        | None =>
            let st3 := after_print st2 line in
            match format_grouped v with
            | inl grouped =>
                match stdout_write w ("Current Downloads: " ++ grouped) with
                | Some e => recorded w u r e st3 f2
                | None =>
                    (inl tt, (after_print st3 ("Current Downloads: " ++ grouped), f2))
                end
            | inr e => recorded w u r e st3 f2
            end
        end
    end.
Proof.
  intros u r f1.
  unfold process_project, try_except.
  unfold bind at 1. unfold eval at 1. cbn [py_get]. unfold ret at 1.
  unfold bind at 1. unfold assign_username at 1. cbn [fst snd].
  unfold bind at 1. unfold eval at 1. unfold ret at 1.
  unfold bind at 1. unfold assign_repository at 1. cbn [fst snd username downloads_data errors].
  change (match dict_get "username" kvs with Some v => v | None => VNone end) with u.
  change (match dict_get "repository" kvs with Some v => v | None => VNone end) with r.
  change {| username := Some u; repository := Some r;
            downloads_data := downloads_data f; errors := errors f |} with f1.
  destruct (negb (truthy u) || negb (truthy r)).
  - unfold bind at 1. unfold raise at 1. unfold any_exception.
    apply handler_bound; reflexivity.
  - unfold bind at 1. unfold ret at 1.
    unfold bind at 1. unfold lift at 1. unfold logging_info at 1. cbn [fst snd].
    unfold bind at 1. unfold lift at 1. cbn [fst snd].
    change (with_log st _)
      with (after_info_log st ("Processing " ++ py_str w u ++ "/" ++ py_str w r)).
    destruct (get_docker_downloads w u r _) as [[v | e] st2].
    + unfold bind at 1. unfold downloads_data_append at 1. cbn [fst snd].
      unfold bind at 1. unfold lift at 1. unfold print at 1. cbn [fst snd]. cbn zeta.
      destruct (stdout_write w (nl ++ _)) as [e |].
      * unfold any_exception. apply handler_bound; reflexivity.
      * unfold bind at 1.
        destruct (format_grouped v) as [grouped | e].
        -- unfold eval at 1. unfold ret at 1. unfold lift, print. cbn [fst snd].
           destruct (stdout_write w ("Current Downloads: " ++ grouped)) as [e |].
           ++ unfold any_exception. apply handler_bound; reflexivity.
           ++ reflexivity.
        -- unfold eval at 1. unfold raise at 1. unfold any_exception.
           apply handler_bound; reflexivity.
    + unfold any_exception. apply handler_bound; reflexivity.
Qed.

Lemma process_project_step (project : value) (st : state) (f : frame)
    (r : unit + exn) (st' : state) (f' : frame) :
  process_project w project (st, f) = (r, (st', f')) ->
  (exists urls,
      requests st' = (requests st ++ urls)%list /\
      length (downloads_data f')
      = length (downloads_data f) + count_fetched w (requests st) urls) /\
  (bound f -> r = inl tt) /\
  (r = inl tt -> bound f') /\
  (forall e, r = inr e -> st' = st /\ f' = f).
Proof.
  assert (Hnd : forall e, py_get project "username" = inr e ->
    process_project w project (st, f) = (r, (st', f')) ->
    (exists urls,
      requests st' = (requests st ++ urls)%list /\
      length (downloads_data f')
      = length (downloads_data f) + count_fetched w (requests st) urls) /\
    (bound f -> r = inl tt) /\
    (r = inl tt -> bound f') /\
    (forall e, r = inr e -> st' = st /\ f' = f)).
  { intros e Hg. rewrite (process_project_not_dict _ _ _ _ Hg).
    unfold bound, recorded.
    destruct (username f) as [u |] eqn:Hu; [destruct (repository f) as [r0 |] eqn:Hr |];
      intro H; injection H as <- <- <-.
    - split; [exists []; cbn; rewrite app_nil_r; split; [reflexivity | lia] |].
      cbn. rewrite Hu, Hr. repeat split; try discriminate.
    - split; [exists []; cbn; rewrite app_nil_r; split; [reflexivity | lia] |].
      repeat split; try discriminate; try tauto; try (intros [_ H]; congruence).
    - split; [exists []; cbn; rewrite app_nil_r; split; [reflexivity | lia] |].
      repeat split; try discriminate; try tauto; try (intros [H _]; congruence). }
  destruct project as [| b | z | fl | s | l | kvs];
    try (apply (Hnd _ eq_refl)).
  clear Hnd.
  rewrite process_project_dict.
  set (u := field (VDict kvs) "username"). set (rp := field (VDict kvs) "repository").
  assert (Hb : bound (entered f u rp)) by (split; discriminate).
  destruct (negb (truthy u) || negb (truthy rp)).
  - unfold recorded. intro H; injection H as <- <- <-.
    split; [exists []; cbn; rewrite app_nil_r; split; [reflexivity | lia] |].
    repeat split; try discriminate.
  - pose proof (get_docker_downloads_requests w u rp
                  (after_info_log st ("Processing " ++ py_str w u ++ "/" ++ py_str w rp))) as Hreq.
    pose proof (get_docker_downloads_fetched w u rp) as Hok.
    pose proof (get_docker_downloads_not_fetched w u rp
                  (after_info_log st ("Processing " ++ py_str w u ++ "/" ++ py_str w rp))) as Hno.
    cbn [after_info_log with_log requests] in Hreq, Hno.
    destruct (get_docker_downloads w u rp _) as [[v | e] st2] eqn:Hg; cbn [fst snd] in *.
    + assert (Hf : fetched (registry w (requests st) (repository_url w u rp)) <> None).
      { intro Hn. destruct (Hno Hn) as [e He]. discriminate. }
      assert (Hc : count_fetched w (requests st) [repository_url w u rp] = 1).
      { cbn. destruct (fetched _); [reflexivity | contradiction]. }
      cbn zeta.
      destruct (stdout_write w _) as [e1 |];
        [| destruct (format_grouped v) as [grouped | e];
           [destruct (stdout_write w _) as [e2 |] |]];
        unfold recorded;
        intro H; injection H as <- <- <-;
        (split; [exists [repository_url w u rp]; split;
                   [exact Hreq | rewrite Hc; cbn; rewrite length_app; cbn; lia] |]);
        repeat split; try discriminate.
    + assert (Hc : count_fetched w (requests st) [repository_url w u rp] = 0).
      { cbn. destruct (fetched _) as [v |] eqn:Hf; [| reflexivity].
        specialize (Hok v (after_info_log st ("Processing " ++ py_str w u ++ "/" ++ py_str w rp))).
        cbn [after_info_log with_log requests] in Hok. rewrite (Hok Hf) in Hg. discriminate. }
      unfold recorded. intro H; injection H as <- <- <-.
      split; [exists [repository_url w u rp]; split;
                [exact Hreq | rewrite Hc; cbn; lia] |].
      repeat split; try discriminate.
Qed.
(** The loop: the requests it issued, the entries it collected, and the only
    way it can stop early. *)
Lemma for_each_process_project (items : list value) :
  forall (st : state) (f : frame) (r : unit + exn) (st' : state) (f' : frame),
    for_each items (process_project w) (st, f) = (r, (st', f')) ->
    (exists urls,
        requests st' = (requests st ++ urls)%list /\
        length (downloads_data f')
        = length (downloads_data f) + count_fetched w (requests st) urls) /\
    (bound f -> r = inl tt) /\
    (forall e, r = inr e -> st' = st /\ f' = f).
Proof.
  induction items as [| project rest IH]; intros st f r st' f'.
  - cbn. intro H. injection H as <- <- <-.
    split; [exists []; cbn; rewrite app_nil_r; split; [reflexivity | lia] |].
    split; [reflexivity | discriminate].
  - cbn [for_each]. unfold bind at 1.
    destruct (process_project w project (st, f)) as [[[] | e] [st1 f1]] eqn:Hp;
      destruct (process_project_step _ _ _ _ _ _ Hp) as [[urls1 [Hr1 Hl1]] [Hb1 [Hb1' Hs1]]].
    + intro Hrest.
      destruct (IH _ _ _ _ _ Hrest) as [[urls2 [Hr2 Hl2]] [Hb2 Hs2]].
      specialize (Hb2 (Hb1' eq_refl)). subst r.
      split; [| split; [reflexivity | discriminate]].
      exists (urls1 ++ urls2)%list. split.
      * rewrite Hr2, Hr1, app_assoc. reflexivity.
      * rewrite count_fetched_app, Hl2, Hl1, Hr1. lia.
    + intro H. injection H as <- <- <-.
      destruct (Hs1 e eq_refl) as [-> ->].
      split; [exists []; cbn; rewrite app_nil_r; split; [reflexivity | lia] |].
      split; [| intros e' _; split; reflexivity].
      intro Hb. specialize (Hb1 Hb). discriminate.
Qed.

(** [collect] from the start of [run]: as many entries collected as fetches
    succeeded; when it raises, nothing was requested or collected. *)
Lemma collect_fetched (self : tracker) (st : state) (r : unit + exn)
    (st' : state) (f' : frame) :
  collect w self (st, initial_frame) = (r, (st', f')) ->
  (exists urls,
      requests st' = (requests st ++ urls)%list /\
      length (downloads_data f') = count_fetched w (requests st) urls) /\
  (forall e, r = inr e -> downloads_data f' = []).
Proof.
  unfold collect. unfold bind at 1.
  destruct (py_iter (projects self)) as [items | e]; unfold eval at 1.
  - unfold ret at 1. intro H.
    destruct (for_each_process_project _ _ _ _ _ _ H) as [[urls [Hr Hl]] [_ Hs]].
    split; [exists urls; split; [exact Hr | exact Hl] |].
    intros e He. destruct (Hs e He) as [_ ->]. reflexivity.
  - unfold raise at 1. intro H. injection H as <- <- <-.
    split; [exists []; cbn; rewrite app_nil_r; split; reflexivity |].
    reflexivity.
Qed.

(** Once an entry that is a dict has been met, [username] and [repository]
    are assigned and the loop runs to its end whatever the later entries
    are. *)
Lemma for_each_after_dict (kvs : list (string * value)) (rest : list value)
    (st : state) (f : frame) :
  fst (for_each (VDict kvs :: rest) (process_project w) (st, f)) = inl tt.
Proof.
  cbn [for_each]. unfold bind.
  destruct (process_project w (VDict kvs) (st, f)) as [r [st1 f1]] eqn:Hp.
  destruct (process_project_step _ _ _ _ _ _ Hp) as [_ [_ [Hbound _]]].
  assert (Hr : r = inl tt).
  { rewrite process_project_dict in Hp. cbn zeta in Hp. unfold recorded in Hp.
    destruct (negb (truthy (field (VDict kvs) "username"))
              || negb (truthy (field (VDict kvs) "repository")));
      [injection Hp as <- _ _; reflexivity |].
    destruct (get_docker_downloads w _ _ _) as [[v | e] st2];
      [destruct (stdout_write w _);
         [| destruct (format_grouped v); [destruct (stdout_write w _) |]] |];
      injection Hp as <- _ _; reflexivity. }
  subst r.
  destruct (for_each rest (process_project w) (st1, f1)) as [r' [st' f']] eqn:Hrest.
  destruct (for_each_process_project _ _ _ _ _ _ Hrest) as [_ [Hok _]].
  cbn [fst]. exact (Hok (Hbound eq_refl)).
Qed.

End Loop.

(** *** commit_and_push_changes *)

Section Publish.

Variable w : world.

(** Once called, [commit_and_push_changes] spawns at least its first
    command. *)
Lemma commit_and_push_changes_commands (changed_file : string) (st : state) :
  exists more,
    commands (snd (commit_and_push_changes w changed_file st))
    = (commands st ++ ["git"; "config"; "user.name"; "GitHub Actions Bot"] :: more)%list.
Proof.
  unfold commit_and_push_changes, try_except, bind, subprocess_run, datetime_now,
    logging_info, logging_error, raise, any_exception.
  repeat match goal with
         | |- context [spawn w ?h ?a] => destruct (spawn w h a)
         end;
    cbn; rewrite <- ?app_assoc; cbn; eexists; reflexivity.
Qed.

(** When every command can be started, [commit_and_push_changes] returns
    normally and logs success, whatever the commands' return codes. *)
Lemma commit_and_push_changes_completed (changed_file : string) (st : state) :
  (forall history args, exists rc, spawn w history args = Completed rc) ->
  exists st',
    commit_and_push_changes w changed_file st = (inl tt, st') /\
    log st' = (log st ++ [(INFO, "Successfully committed and pushed changes to GitHub")])%list.
Proof.
  intro Hall.
  unfold commit_and_push_changes, try_except, bind, subprocess_run, datetime_now,
    logging_info, logging_error, raise, any_exception.
  repeat match goal with
         | |- context [spawn w ?h ?a] =>
             let rc := fresh "rc" in
             let H := fresh "H" in
             destruct (Hall h a) as [rc H]; rewrite H; clear H
         end.
  eexists. split; reflexivity.
Qed.

End Publish.

(** *** The constructor *)

(** The constructor raises, and leaves the state as it found it, in each of
    the three ways the configuration can fail to load. *)
Lemma __init___config_failure (w : world) (st : state) :
  (getenv w "DOCKER_PROJECTS" = None \/
   (exists s msg, getenv w "DOCKER_PROJECTS" = Some s /\ json_loads w s = inr msg) \/
   (exists s v, getenv w "DOCKER_PROJECTS" = Some s /\ json_loads w s = inl v /\
                truthy v = false)) ->
  exists msg, __init__ w st = (inr (ValueError msg), st).
Proof.
  unfold __init__, _load_projects, os_getenv. unfold bind, ret, raise.
  intros [Habsent | [[s [msg [Henv Hbad]]] | [s [v [Henv [Hload Hempty]]]]]].
  - rewrite Habsent. cbn [env_truthy negb]. eexists. reflexivity.
  - rewrite Henv. cbn [env_truthy].
    destruct (negb (negb (s =? ""))); [eexists; reflexivity |].
    rewrite Hbad. eexists. reflexivity.
  - rewrite Henv. cbn [env_truthy].
    destruct (negb (negb (s =? ""))); [eexists; reflexivity |].
    rewrite Hload, Hempty. cbn [negb]. eexists. reflexivity.
Qed.

(** *** One run, seen from outside *)

Section Summary.

Variable w : world.

Lemma published_keeps {X} (g : state -> X) (self : tracker) (st : state) :
  (forall st x, g (with_commands st x) = g st) ->
  (forall st x, g (with_log st x) = g st) ->
  (forall st x, g (with_clock_reads st x) = g st) ->
  g (snd (published w self st)) = g st.
Proof.
  intros Hc Hl Ht. unfold published.
  destruct (env_truthy (getenv w "GITHUB_ACTIONS")); [| reflexivity].
  pose proof (commit_and_push_changes_keeps w g (csv_file self) Hc Hl Ht st) as H.
  destruct (commit_and_push_changes w (csv_file self) st) as [[[] | e] st']; exact H.
Qed.

Lemma report_keeps {X} (g : state -> X) (errors : list string) (st : state) :
  (forall st x, g (with_log st x) = g st) ->
  g (snd (report errors st)) = g st.
Proof.
  intro Hl. unfold report. destruct errors; [apply Hl | reflexivity].
Qed.

(** What the publish step adds to the commands spawned so far. *)
Lemma published_commands (self : tracker) (st : state) :
  if env_truthy (getenv w "GITHUB_ACTIONS") then
    exists more,
      commands (snd (published w self st))
      = (commands st ++ ["git"; "config"; "user.name"; "GitHub Actions Bot"] :: more)%list
  else commands (snd (published w self st)) = commands st.
Proof.
  unfold published.
  destruct (env_truthy (getenv w "GITHUB_ACTIONS")); [| reflexivity].
  destruct (commit_and_push_changes_commands w (csv_file self) st) as [more H].
  exists more.
  destruct (commit_and_push_changes w (csv_file self) st) as [[[] | e] st']; exact H.
Qed.

(** One run, seen from outside: the requests it issued, and, by the number
    of them that succeeded, what it wrote and whether it published. *)
Lemma run_summary (self : tracker) (st : state) :
  exists urls,
    requests (snd (run w self st)) = (requests st ++ urls)%list /\
    match count_fetched w (requests st) urls with
    | 0 =>
        csv_rows (snd (run w self st)) = csv_rows st /\
        commands (snd (run w self st)) = commands st
    | S n =>
        (exists rows,
            length rows = S n /\
            csv_rows (snd (run w self st)) = Some (ledger_before st ++ rows)%list) /\
        if env_truthy (getenv w "GITHUB_ACTIONS") then
          exists more,
            commands (snd (run w self st))
            = (commands st ++ ["git"; "config"; "user.name"; "GitHub Actions Bot"] :: more)%list
        else commands (snd (run w self st)) = commands st
    end.
Proof.
  rewrite run_eq.
  pose proof (collect_keeps w csv_rows self (fun _ _ => eq_refl) (fun _ _ => eq_refl)
                (fun _ _ => eq_refl) (at_loop_start st)) as Hcsv.
  pose proof (collect_keeps w commands self (fun _ _ => eq_refl) (fun _ _ => eq_refl)
                (fun _ _ => eq_refl) (at_loop_start st)) as Hcmd.
  destruct (collect w self (at_loop_start st)) as [r [st1 f1]] eqn:Hc.
  cbn [fst snd at_loop_start with_clock_reads csv_rows commands] in Hcsv, Hcmd.
  destruct (collect_fetched w _ _ _ _ _ Hc) as [[urls [Hreq Hlen]] Hraise].
  cbn [requests with_clock_reads] in Hreq, Hlen.
  exists urls. rewrite <- Hlen.
  destruct r as [[] | e].
  - destruct (downloads_data f1) as [| d ds] eqn:Hdd.
    + cbn [length]. rewrite !report_keeps by reflexivity.
      repeat split; assumption.
    + cbn zeta. rewrite store_data_result. cbn [snd].
      set (st2 := with_log _ _).
      pose proof (published_commands self st2) as Hpub.
      pose proof (published_keeps csv_rows self st2 (fun _ _ => eq_refl)
                    (fun _ _ => eq_refl) (fun _ _ => eq_refl)) as Hpcsv.
      pose proof (published_keeps requests self st2 (fun _ _ => eq_refl)
                    (fun _ _ => eq_refl) (fun _ _ => eq_refl)) as Hpreq.
      destruct (published w self st2) as [extra st3]. cbn [snd] in *.
      rewrite !report_keeps by reflexivity.
      split; [rewrite Hpreq; exact Hreq |].
      cbn [length]. split.
      * exists (map (ledger_row w (strftime_now w (clock_reads st))) (d :: ds)).
        split; [rewrite length_map; reflexivity |].
        rewrite Hpcsv. subst st2. cbn [csv_rows with_log with_csv_rows].
        unfold ledger_before. rewrite Hcsv. reflexivity.
      * subst st2. cbn [commands with_log with_csv_rows] in Hpub.
        rewrite Hcmd in Hpub. exact Hpub.
  - cbn [snd]. rewrite (Hraise e eq_refl). cbn [length].
    repeat split; assumption.
Qed.

End Summary.

(** *** The whole program *)

Section Whole.

Variable w : world.

Lemma __init___cases (st : state) :
  (exists msg, __init__ w st = (inr (ValueError msg), st)) \/
  (exists v, __init__ w st = (inl (tracker_of v), with_stats_dir st true)).
Proof.
  unfold __init__, _load_projects, os_getenv, bind, ret, raise, mkdir, tracker_of.
  destruct (negb (env_truthy (getenv w "DOCKER_PROJECTS"))); [left; eexists; reflexivity |].
  destruct (json_loads w _) as [v | msg]; [| left; eexists; reflexivity].
  destruct (negb (truthy v)); [left; eexists; reflexivity |].
  right. exists v. reflexivity.
Qed.

(** The top-level handler only logs and prints. *)
Lemma main_keeps_after {X} (g : state -> X) (st : state) :
  (forall st x, g (with_log st x) = g st) ->
  (forall st x, g (with_stdout st x) = g st) ->
  g (snd (main w st)) = g (snd ((tracker <- __init__ w ;; run w tracker) st)).
Proof.
  intros Hl Ho. unfold main, try_except.
  destruct ((tracker <- __init__ w ;; run w tracker) st) as [[[] | e] st1]; [reflexivity |].
  unfold any_exception, bind, logging_error, print.
  destruct (stdout_write w _); cbn [snd]; rewrite ?Ho, Hl; reflexivity.
Qed.

(** [run_summary] for the whole program. *)
Lemma main_summary (st : state) :
  exists urls,
    requests (snd (main w st)) = (requests st ++ urls)%list /\
    match count_fetched w (requests st) urls with
    | 0 =>
        csv_rows (snd (main w st)) = csv_rows st /\
        commands (snd (main w st)) = commands st
    | S n =>
        (exists rows,
            length rows = S n /\
            csv_rows (snd (main w st)) = Some (ledger_before st ++ rows)%list) /\
        if env_truthy (getenv w "GITHUB_ACTIONS") then
          exists more,
            commands (snd (main w st))
            = (commands st ++ ["git"; "config"; "user.name"; "GitHub Actions Bot"] :: more)%list
        else commands (snd (main w st)) = commands st
    end.
Proof.
  rewrite (main_keeps_after requests), (main_keeps_after csv_rows),
    (main_keeps_after commands) by reflexivity.
  destruct (__init___cases st) as [[msg Hinit] | [v Hinit]]; unfold bind; rewrite Hinit.
  - exists []. cbn. rewrite app_nil_r. repeat split.
  - destruct (run_summary w (tracker_of v) (with_stats_dir st true)) as [urls [Hreq Hn]].
    exists urls. split; [exact Hreq |]. exact Hn.
Qed.

End Whole.

Lemma app_cons_neq {A} (l : list A) (x : A) (more : list A) : (l ++ x :: more)%list <> l.
Proof.
  intro H. apply (f_equal (@length A)) in H. rewrite length_app in H. cbn in H. lia.
Qed.

(** *** The loop when every entry is valid and every fetch succeeds *)

Section Success.

Variable w : world.

Lemma process_project_valid (project v : value) (st : state) (f : frame) :
  valid_project project = true ->
  fetched (registry w (requests st) (entry_url w project)) = Some v ->
  exists st' f',
    process_project w project (st, f) = (inl tt, (st', f')) /\
    downloads_data f' = (downloads_data f ++ [download_of (project, v)])%list /\
    requests st' = (requests st ++ [entry_url w project])%list.
Proof.
  destruct project as [| b | z | fl | s | l | kvs]; try discriminate.
  unfold entry_url. intros Hvalid Hfetched.
  rewrite process_project_dict. cbn zeta.
  set (u := field (VDict kvs) "username") in *.
  set (r := field (VDict kvs) "repository") in *.
  cbn [valid_project] in Hvalid. fold u r in Hvalid.
  apply andb_true_iff in Hvalid. destruct Hvalid as [Hu Hr]. rewrite Hu, Hr. cbn [negb orb].
  rewrite (get_docker_downloads_fetched w u r v) by exact Hfetched.
  unfold download_of. cbn [fst snd]. fold u r.
  cbn zeta.
  destruct (stdout_write w _) as [e1 |];
    [| destruct (format_grouped v) as [grouped | e];
       [destruct (stdout_write w _) as [e2 |] |]];
    unfold recorded;
    eexists; eexists; (split; [reflexivity |]); split; reflexivity.
Qed.

Lemma for_each_valid (items : list value) :
  forall (counts : list value) (st : state) (f : frame),
    forallb valid_project items = true ->
    fetched_all w (requests st) (map (entry_url w) items) = Some counts ->
    length counts = length items /\
    exists st' f',
      for_each items (process_project w) (st, f) = (inl tt, (st', f')) /\
      downloads_data f'
      = (downloads_data f ++ map download_of (combine items counts))%list.
Proof.
  induction items as [| project rest IH]; intros counts st f Hvalid Hall.
  - cbn in Hall. injection Hall as <-. split; [reflexivity |].
    exists st, f. cbn. rewrite app_nil_r. split; reflexivity.
  - cbn [forallb] in Hvalid. apply andb_true_iff in Hvalid. destruct Hvalid as [Hp Hrest].
    cbn [map fetched_all] in Hall.
    destruct (fetched (registry w (requests st) (entry_url w project))) as [v |] eqn:Hv;
      [| discriminate].
    destruct (fetched_all w (requests st ++ [entry_url w project]) (map (entry_url w) rest))
      as [vs |] eqn:Hvs; [| discriminate].
    injection Hall as <-.
    destruct (process_project_valid project v st f Hp Hv) as [st1 [f1 [Hrun [Hdd Hreq]]]].
    rewrite <- Hreq in Hvs.
    destruct (IH vs st1 f1 Hrest Hvs) as [Hlen [st' [f' [Hloop Hdd']]]].
    split; [cbn; rewrite Hlen; reflexivity |].
    exists st', f'. cbn [for_each]. unfold bind. rewrite Hrun. split; [exact Hloop |].
    rewrite Hdd', Hdd, <- app_assoc. reflexivity.
Qed.

End Success.

(** *** Further lemmas on the methods and on the loop *)

Lemma truthy_iterates (v : value) : truthy v = true -> py_iter v <> inl [].
Proof.
  destruct v as [| b | z | fl | s | l | kvs]; cbn [py_iter]; try discriminate.
  - destruct s as [| c s]; [discriminate |]. intros _ H. discriminate H.
  - destruct l as [| x l]; [discriminate |]. intros _ H. discriminate H.
  - destruct kvs as [| [k x] kvs]; [discriminate |]. intros _ H. discriminate H.
Qed.

Lemma returned_count_was_fetched (w : world) (u r v : value) (st : state) :
  fst (get_docker_downloads w u r st) = inl v ->
  fetched (registry w (requests st) (repository_url w u r)) = Some v.
Proof.
  intro H.
  destruct (fetched (registry w (requests st) (repository_url w u r))) as [v' |] eqn:Hf.
  - rewrite (get_docker_downloads_fetched w u r v' st Hf) in H.
    injection H as ->. reflexivity.
  - destruct (get_docker_downloads_not_fetched w u r st Hf) as [e He]. congruence.
Qed.

Lemma get_docker_downloads_failure_state (w : world) (u r : value)
    (st st' : state) (e : exn) :
  get_docker_downloads w u r st = (inr e, st') ->
  st' = if is_request_exception e
        then after_error_log (after_request st (repository_url w u r))
               (fetch_failure_msg w u r e)
        else after_request st (repository_url w u r).
Proof.
  unfold get_docker_downloads, try_except, bind, requests_get, eval, raise, ret,
    logging_error.
  fold (repository_url w u r). set (url := repository_url w u r).
  destruct (registry w (requests st) url) as [e0 | resp].
  - destruct (is_request_exception e0) eqn:He0; intro H; injection H as <- <-;
      rewrite He0; reflexivity.
  - destruct (raise_for_status_cases url resp (after_request st url))
      as [[Hs Hr] | [Hs [msg Hr]]]; unfold after_request in Hr; rewrite Hr.
    + destruct (body resp) as [data | e0].
      * destruct (py_getitem data "pull_count") as [v | e0]; [discriminate |].
        destruct (is_request_exception e0) eqn:He0; intro H; injection H as <- <-;
          rewrite He0; reflexivity.
      * destruct (is_request_exception e0) eqn:He0; intro H; injection H as <- <-;
          rewrite He0; reflexivity.
    + cbn [is_request_exception]. intro H. injection H as <- <-. reflexivity.
Qed.

Section PublishOutcomes.

Variable w : world.

Lemma commit_and_push_changes_all_started (changed_file : string) (st : state) :
  (forall history args, exists rc, spawn w history args = Completed rc) ->
  commit_and_push_changes w changed_file st
  = (inl tt,
     after_info_log
       (with_clock_reads
          (with_commands st
             (commands st
                ++ publish_commands changed_file (strftime_now w (clock_reads st)))%list)
          (S (clock_reads st)))
       "Successfully committed and pushed changes to GitHub").
Proof.
  intro Hall.
  unfold commit_and_push_changes, try_except, bind, subprocess_run, datetime_now,
    logging_info, logging_error, raise, any_exception.
  repeat match goal with
         | |- context [spawn w ?h ?a] =>
             let rc := fresh "rc" in
             let H := fresh "H" in
             destruct (Hall h a) as [rc H]; rewrite H; clear H
         end.
  unfold after_info_log, publish_commands.
  cbn [commands with_commands with_clock_reads with_log clock_reads log csv_rows
       stats_dir_exists stdout requests].
  rewrite <- !app_assoc. reflexivity.
Qed.

Lemma commit_and_push_changes_failure (changed_file : string) (st st' : state) (e : exn) :
  commit_and_push_changes w changed_file st = (inr e, st') ->
  exists n,
    n < 5 /\
    commands st'
    = (commands st
         ++ firstn (S n) (publish_commands changed_file (strftime_now w (clock_reads st))))%list /\
    spawn w
      (commands st
         ++ firstn n (publish_commands changed_file (strftime_now w (clock_reads st))))%list
      (nth n (publish_commands changed_file (strftime_now w (clock_reads st))) [])
    = SpawnError e /\
    log st' = (log st ++ [(ERROR, ("Failed to commit and push changes: " ++ str_exn e)%string)])%list.
Proof.
  unfold commit_and_push_changes, try_except, bind, subprocess_run, datetime_now,
    logging_info, logging_error, raise, any_exception.
  repeat match goal with
         | |- context [spawn w ?h ?a] => destruct (spawn w h a) eqn:?
         end;
    intro H; try discriminate H; injection H as <- <-;
    cbn [commands with_commands with_clock_reads with_log clock_reads log] in *;
    rewrite <- ?app_assoc in *; cbn [app] in *;
    first
      [ exists 0; split; [lia | split; [reflexivity | split; [| reflexivity]]];
        cbn; rewrite ?app_nil_r; assumption
      | exists 1; split; [lia | split; [reflexivity | split; [| reflexivity]]];
        cbn; assumption
      | exists 2; split; [lia | split; [reflexivity | split; [| reflexivity]]];
        cbn; assumption
      | exists 3; split; [lia | split; [reflexivity | split; [| reflexivity]]];
        cbn; assumption
      | exists 4; split; [lia | split; [reflexivity | split; [| reflexivity]]];
        cbn; assumption ].
Qed.

End PublishOutcomes.

Section LoopRequests.

Variable w : world.

Lemma valid_project_test (kvs : list (string * value)) :
  negb (truthy (field (VDict kvs) "username"))
  || negb (truthy (field (VDict kvs) "repository"))
  = negb (valid_project (VDict kvs)).
Proof.
  cbn [valid_project].
  destruct (truthy (field (VDict kvs) "username"));
    destruct (truthy (field (VDict kvs) "repository")); reflexivity.
Qed.

Lemma not_dict_py_get (p : value) :
  is_dict p = false -> exists e, py_get p "username" = inr e.
Proof. destruct p; try discriminate; intros _; eexists; reflexivity. Qed.

Lemma not_dict_invalid (p : value) : is_dict p = false -> valid_project p = false.
Proof. destruct p; try discriminate; reflexivity. Qed.

(** One turn of the loop once the names of the [except] clause are assigned,
    or on a dict: it returns, and requests the entry exactly when it is
    valid. *)
Lemma process_project_requests (p : value) (st : state) (f : frame) :
  is_dict p = true \/ bound f ->
  exists st' f',
    process_project w p (st, f) = (inl tt, (st', f')) /\
    bound f' /\
    requests st'
    = (requests st ++ if valid_project p then [entry_url w p] else [])%list.
Proof.
  intro Hcase. destruct (is_dict p) eqn:Hd.
  - destruct p as [| b | z | fl | s | l | kvs]; try discriminate.
    rewrite process_project_dict. cbn zeta. rewrite valid_project_test.
    unfold entry_url.
    set (u := field (VDict kvs) "username"). set (r := field (VDict kvs) "repository").
    assert (Hb : bound (entered f u r)) by (split; discriminate).
    destruct (valid_project (VDict kvs)); cbn [negb].
    + pose proof (get_docker_downloads_requests w u r
                    (after_info_log st ("Processing " ++ py_str w u ++ "/" ++ py_str w r)))
        as Hreq.
      cbn [after_info_log with_log requests] in Hreq.
      destruct (get_docker_downloads w u r _) as [[v | e] st2]; cbn [snd] in Hreq.
      * cbn zeta.
        destruct (stdout_write w _);
          [| destruct (format_grouped v); [destruct (stdout_write w _) |]];
          unfold recorded;
          eexists; eexists; (split; [reflexivity |]); (split; [exact Hb |]); exact Hreq.
      * unfold recorded. eexists; eexists. split; [reflexivity |].
        split; [exact Hb |]. exact Hreq.
    + unfold recorded. eexists; eexists. split; [reflexivity |].
      split; [exact Hb |]. cbn. rewrite app_nil_r. reflexivity.
  - destruct Hcase as [Hc | [Hu Hr]]; [discriminate |].
    destruct (not_dict_py_get p Hd) as [e He].
    rewrite (process_project_not_dict w p e st f He), (not_dict_invalid p Hd).
    destruct (username f) as [u |] eqn:Hun; [| contradiction].
    destruct (repository f) as [r |] eqn:Hre; [| contradiction].
    unfold recorded. eexists; eexists. split; [reflexivity |].
    split; [split; cbn; congruence |]. cbn. rewrite app_nil_r. reflexivity.
Qed.

Lemma for_each_requests (items : list value) :
  forall (st : state) (f : frame),
    bound f ->
    exists st' f',
      for_each items (process_project w) (st, f) = (inl tt, (st', f')) /\
      requests st' = (requests st ++ map (entry_url w) (filter valid_project items))%list.
Proof.
  induction items as [| p rest IH]; intros st f Hb.
  - exists st, f. cbn. rewrite app_nil_r. split; reflexivity.
  - destruct (process_project_requests p st f (or_intror Hb)) as [st1 [f1 [Hp [Hb1 Hr1]]]].
    destruct (IH st1 f1 Hb1) as [st' [f' [Hrest Hr']]].
    exists st', f'. cbn [for_each]. unfold bind. rewrite Hp. split; [exact Hrest |].
    rewrite Hr', Hr1, <- app_assoc. cbn [filter].
    destruct (valid_project p); reflexivity.
Qed.

(** The loop on a list whose first entry is a dict. *)
Lemma for_each_requests_dict_first (kvs : list (string * value)) (rest : list value)
    (st : state) (f : frame) :
  exists st' f',
    for_each (VDict kvs :: rest) (process_project w) (st, f) = (inl tt, (st', f')) /\
    requests st'
    = (requests st ++ map (entry_url w) (filter valid_project (VDict kvs :: rest)))%list.
Proof.
  destruct (process_project_requests (VDict kvs) st f (or_introl eq_refl))
    as [st1 [f1 [Hp [Hb1 Hr1]]]].
  destruct (for_each_requests rest st1 f1 Hb1) as [st' [f' [Hrest Hr']]].
  exists st', f'. cbn [for_each]. unfold bind. rewrite Hp. split; [exact Hrest |].
  rewrite Hr', Hr1, <- app_assoc. cbn [filter].
  destruct (valid_project (VDict kvs)); reflexivity.
Qed.

End LoopRequests.

Section RunAfterLoop.

Variable w : world.

Lemma __init___loaded (st : state) (s : string) (v : value) :
  getenv w "DOCKER_PROJECTS" = Some s -> s <> "" -> json_loads w s = inl v ->
  truthy v = true ->
  __init__ w st = (inl (tracker_of v), with_stats_dir st true).
Proof.
  intros Henv Hs Hload Hv.
  unfold __init__, _load_projects, os_getenv, bind, ret, raise, mkdir, tracker_of.
  rewrite Henv. cbn [env_truthy]. apply String.eqb_neq in Hs. rewrite Hs. cbn [negb].
  rewrite Hload, Hv. reflexivity.
Qed.

(** What [run] does after its loop leaves alone whatever only the loop
    changes. *)
Lemma run_keeps_after_collect {X} (g : state -> X) (self : tracker) (st : state) :
  (forall st x, g (with_csv_rows st x) = g st) ->
  (forall st x, g (with_log st x) = g st) ->
  (forall st x, g (with_commands st x) = g st) ->
  (forall st x, g (with_clock_reads st x) = g st) ->
  g (snd (run w self st)) = g (fst (snd (collect w self (at_loop_start st)))).
Proof.
  intros Hcsv Hlog Hcmd Hclk. rewrite run_eq.
  destruct (collect w self (at_loop_start st)) as [[[] | e] [st1 f1]]; [| reflexivity].
  cbn [fst snd].
  destruct (downloads_data f1) as [| d ds].
  - apply report_keeps, Hlog.
  - cbn zeta. rewrite store_data_result. cbn [snd].
    pose proof (published_keeps w g self
                  (with_log
                     (with_csv_rows st1
                        (Some (ledger_before st1
                                 ++ map (ledger_row w (strftime_now w (clock_reads st))) (d :: ds))%list))
                     (log st1 ++ store_log st1 (length (d :: ds)))%list)
                  Hcmd Hlog Hclk) as Hpub.
    destruct (published w self _) as [extra st3]. cbn [snd] in Hpub.
    rewrite (report_keeps g _ _ Hlog), Hpub, Hlog, Hcsv. reflexivity.
Qed.

Lemma collect_list (self : tracker) (items : list value) (sf : state * frame) :
  projects self = VList items ->
  collect w self sf = for_each items (process_project w) sf.
Proof.
  intro Hp. unfold collect, bind, eval, ret. rewrite Hp. reflexivity.
Qed.

End RunAfterLoop.

Section LoopUnfetched.

Variable w : world.



End LoopUnfetched.

Section LoopFetched.

Variable w : world.

(** One turn of the loop on a valid entry whose fetch yields [v]: the entry
    is collected before anything is printed and before its count is
    formatted, so a line that cannot be written or a count that cannot be
    formatted gives both an entry and a message. *)
Lemma process_project_fetched (p v : value) (st : state) (f : frame) :
  valid_project p = true ->
  fetched (registry w (requests st) (entry_url w p)) = Some v ->
  process_project w p (st, f)
  = let u := field p "username" in
    let r := field p "repository" in
    let st2 := after_request
                 (after_info_log st ("Processing " ++ entry_name w p))
                 (entry_url w p) in
    let f2 := with_download (entered f u r) (download_of (p, v)) in
    let line := nl ++ "Docker Hub Statistics for " ++ entry_name w p in
    match stdout_write w line with
    | Some e => recorded w u r e st2 f2
    | None =>
        let st3 := after_print st2 line in
        match format_grouped v with
        | inl grouped =>
            match stdout_write w ("Current Downloads: " ++ grouped) with
            | Some e => recorded w u r e st3 f2
            | None => (inl tt, (after_print st3 ("Current Downloads: " ++ grouped), f2))
            end
        | inr e => recorded w u r e st3 f2
        end
    end.
Proof.
  destruct p as [| b | z | fl | s | l | kvs]; try discriminate.
  intros Hvalid Hfetched. rewrite process_project_dict. cbn zeta.
  rewrite valid_project_test, Hvalid. cbn [negb].
  unfold entry_url, entry_name in *.
  rewrite (get_docker_downloads_fetched w _ _ v) by exact Hfetched.
  reflexivity.
Qed.

Lemma for_each_happy (items : list value) :
  forall (zs : list Z) (st : state) (f : frame),
    forallb valid_project items = true ->
    fetched_all w (requests st) (map (entry_url w) items) = Some (map VInt zs) ->
    Forall (fun line => stdout_write w line = None)
           (concat (map (stat_lines w) (combine items zs))) ->
    exists st' f',
      for_each items (process_project w) (st, f) = (inl tt, (st', f')) /\
      errors f' = errors f /\
      downloads_data f'
      = (downloads_data f ++ map download_of (combine items (map VInt zs)))%list /\
      stdout st' = (stdout st ++ concat (map (stat_lines w) (combine items zs)))%list.
Proof.
  induction items as [| p rest IH]; intros zs st f Hvalid Hall Hout.
  - exists st, f. cbn. rewrite !app_nil_r. repeat split.
  - cbn [forallb] in Hvalid. apply andb_true_iff in Hvalid. destruct Hvalid as [Hp Hrest].
    cbn [map fetched_all] in Hall.
    destruct (fetched (registry w (requests st) (entry_url w p))) as [v |] eqn:Hv;
      [| discriminate].
    destruct (fetched_all w (requests st ++ [entry_url w p]) (map (entry_url w) rest))
      as [vs |] eqn:Hvs; [| discriminate].
    destruct zs as [| z zs]; [discriminate |].
    cbn [map] in Hall. injection Hall as -> ->.
    cbn [combine map concat stat_lines fst snd app] in Hout.
    apply Forall_cons_iff in Hout. destruct Hout as [Hline1 Hout].
    apply Forall_cons_iff in Hout. destruct Hout as [Hline2 Hout].
    pose proof (process_project_fetched p (VInt z) st f Hp Hv) as Hrun.
    cbn zeta in Hrun. cbn [format_grouped] in Hrun. rewrite Hline1, Hline2 in Hrun.
    match type of Hrun with _ = (_, (?s1, ?f1)) =>
      destruct (IH zs s1 f1 Hrest Hvs Hout) as [st' [f' [Hloop [Herr [Hdd Hstdout]]]]]
    end.
    exists st', f'. cbn [for_each]. unfold bind. rewrite Hrun.
    split; [exact Hloop |]. split; [rewrite Herr; reflexivity |].
    split.
    + rewrite Hdd. cbn [with_download entered downloads_data combine map].
      rewrite <- app_assoc. reflexivity.
    + rewrite Hstdout. cbn [after_print with_stdout stdout after_request with_requests
                            after_info_log with_log combine map concat stat_lines fst snd].
      rewrite <- !app_assoc. reflexivity.
Qed.

End LoopFetched.

Section LoopErrors.

Variable w : world.

Lemma get_docker_downloads_log_grows (u r : value) (st : state) :
  incl (log st) (log (snd (get_docker_downloads w u r st))).
Proof.
  destruct (get_docker_downloads w u r st) as [[v | e] st'] eqn:Hg.
  - pose proof (returned_count_was_fetched w u r v st) as Hf.
    rewrite Hg in Hf. specialize (Hf eq_refl).
    rewrite (get_docker_downloads_fetched w u r v st Hf) in Hg.
    injection Hg as <-. cbn. apply incl_refl.
  - rewrite (get_docker_downloads_failure_state w u r st st' e Hg). cbn [snd].
    destruct (is_request_exception e); cbn; [apply incl_appl |]; apply incl_refl.
Qed.

Lemma recorded_errors_logged (u r : value) (e : exn) (st0 st : state) (f0 f : frame) :
  incl (log st0) (log st) ->
  errors f = errors f0 ->
  errors_logged (st0, f0) ->
  errors_logged (snd (recorded w u r e st f)).
Proof.
  unfold errors_logged, recorded. cbn [fst snd after_error_log with_log log with_error errors].
  intros Hincl Herr Hlogged. rewrite Herr. apply Forall_app. split.
  - eapply Forall_impl; [| exact Hlogged].
    intros msg Hin. apply in_or_app. left. apply Hincl, Hin.
  - constructor; [| constructor]. apply in_or_app. right. left. reflexivity.
Qed.

Lemma kept_errors_logged (st0 st : state) (f0 f : frame) :
  incl (log st0) (log st) ->
  errors f = errors f0 ->
  errors_logged (st0, f0) ->
  errors_logged (st, f).
Proof.
  unfold errors_logged. cbn [fst snd]. intros Hincl Herr Hlogged. rewrite Herr.
  eapply Forall_impl; [| exact Hlogged]. intros msg Hin. apply Hincl, Hin.
Qed.

Lemma process_project_errors_logged (p : value) (sf : state * frame) :
  errors_logged sf -> errors_logged (snd (process_project w p sf)).
Proof.
  destruct sf as [st f]. intro Hlogged.
  destruct (is_dict p) eqn:Hd.
  - destruct p as [| b | z | fl | s | l | kvs]; try discriminate.
    rewrite process_project_dict. cbn zeta.
    set (u := field (VDict kvs) "username"). set (r := field (VDict kvs) "repository").
    destruct (negb (truthy u) || negb (truthy r)).
    + apply (recorded_errors_logged _ _ _ st st f); [apply incl_refl | reflexivity | exact Hlogged].
    + pose proof (get_docker_downloads_log_grows u r
                    (after_info_log st ("Processing " ++ py_str w u ++ "/" ++ py_str w r)))
        as Hgrow.
      destruct (get_docker_downloads w u r _) as [[v | e] st2]; cbn [snd] in Hgrow.
      * assert (Hincl : incl (log st) (log st2)).
        { intros x Hx. apply Hgrow. cbn. apply in_or_app. left. exact Hx. }
        destruct (stdout_write w _) as [e1 |];
          [| destruct (format_grouped v) as [grouped | e];
             [destruct (stdout_write w _) as [e2 |] |]].
        -- apply (recorded_errors_logged _ _ _ st _ f); [exact Hincl | reflexivity | exact Hlogged].
        -- apply (recorded_errors_logged _ _ _ st _ f); [exact Hincl | reflexivity | exact Hlogged].
        -- cbn [snd]. apply (kept_errors_logged st _ f); [exact Hincl | reflexivity | exact Hlogged].
        -- apply (recorded_errors_logged _ _ _ st _ f); [exact Hincl | reflexivity | exact Hlogged].
      * apply (recorded_errors_logged _ _ _ st _ f); [| reflexivity | exact Hlogged].
        intros x Hx. apply Hgrow. cbn. apply in_or_app. left. exact Hx.
  - destruct (not_dict_py_get p Hd) as [e He].
    rewrite (process_project_not_dict w p e st f He).
    destruct (username f) as [u |]; [destruct (repository f) as [r |] |];
      try exact Hlogged.
    apply (recorded_errors_logged _ _ _ st st f); [apply incl_refl | reflexivity | exact Hlogged].
Qed.

Lemma for_each_errors_logged (items : list value) :
  forall sf, errors_logged sf -> errors_logged (snd (for_each items (process_project w) sf)).
Proof.
  induction items as [| p rest IH]; intros sf Hlogged.
  - exact Hlogged.
  - cbn [for_each]. unfold bind.
    pose proof (process_project_errors_logged p sf Hlogged) as Hstep.
    destruct (process_project w p sf) as [[[] | e] sf1]; cbn [snd] in *.
    + apply IH, Hstep.
    + exact Hstep.
Qed.

End LoopErrors.

(** ** The claims *)

(** C1: for a configuration that is a list of N valid entries, when the
    registry answers every request of the run with a count, the program adds
    exactly N rows to the ledger, in the order of the configuration; each
    row holds the date read at the start of the run, the text
    "username/repository" of its entry and the count fetched for it. *)
Theorem successful_run_appends_one_row_per_entry (w : world) (st : state) (s : string)
    (items counts : list value) :
  getenv w "DOCKER_PROJECTS" = Some s ->
  s <> "" ->
  json_loads w s = inl (VList items) ->
  items <> [] ->
  forallb valid_project items = true ->
  fetched_all w (requests st) (map (entry_url w) items) = Some counts ->
  length counts = length items /\
  csv_rows (snd (main w st))
  = Some (ledger_before st
            ++ map (fun pc =>
                      [strftime_now w (clock_reads st);
                       (py_str w (field (fst pc) "username") ++ "/"
                          ++ py_str w (field (fst pc) "repository"))%string;
                       csv_field w (snd pc)])
                   (combine items counts))%list.
Proof.
  intros Henv Hs Hload Hitems Hvalid Hall.
  assert (Hinit : __init__ w st = (inl (tracker_of (VList items)), with_stats_dir st true)).
  { unfold __init__, _load_projects, os_getenv, bind, ret, raise, mkdir, tracker_of.
    rewrite Henv. cbn [env_truthy].
    apply String.eqb_neq in Hs. rewrite Hs. cbn [negb]. rewrite Hload.
    destruct items; [contradiction |]. reflexivity. }
  rewrite (main_keeps_after w csv_rows) by reflexivity.
  unfold bind at 1. rewrite Hinit. rewrite run_eq.
  destruct (for_each_valid w items counts (with_clock_reads (with_stats_dir st true)
                                             (S (clock_reads st))) initial_frame Hvalid Hall)
    as [Hlen [st1 [f1 [Hloop Hdd]]]].
  split; [exact Hlen |].
  pose proof (collect_keeps w csv_rows (tracker_of (VList items)) (fun _ _ => eq_refl)
                (fun _ _ => eq_refl) (fun _ _ => eq_refl)
                (at_loop_start (with_stats_dir st true))) as Hcsv.
  assert (Hcollect : collect w (tracker_of (VList items)) (at_loop_start (with_stats_dir st true))
                     = (inl tt, (st1, f1))).
  { unfold collect, at_loop_start, bind, eval, ret. cbn [projects tracker_of py_iter].
    exact Hloop. }
  rewrite Hcollect in *. cbn [fst snd at_loop_start with_clock_reads with_stats_dir csv_rows] in Hcsv.
  cbn [initial_frame downloads_data app] in Hdd.
  destruct (downloads_data f1) as [| d ds] eqn:Hf1.
  - destruct items as [| p ps]; [contradiction |].
    destruct counts as [| c cs]; [discriminate |]. discriminate.
  - cbn zeta. rewrite store_data_result. cbn [snd].
    set (st2 := with_log _ _).
    pose proof (published_keeps w csv_rows (tracker_of (VList items)) st2 (fun _ _ => eq_refl)
                  (fun _ _ => eq_refl) (fun _ _ => eq_refl)) as Hpub.
    destruct (published w (tracker_of (VList items)) st2) as [extra st3]. cbn [snd] in Hpub.
    rewrite report_keeps by reflexivity. rewrite Hpub.
    subst st2. cbn [csv_rows with_log with_csv_rows clock_reads with_stats_dir].
    unfold ledger_before. rewrite Hcsv, Hdd, map_map. reflexivity.
Qed.

(** Two configured repositories, both fetched, on a ledger that already
    holds one row. *)
Lemma successful_run_appends_one_row_per_entry_witness :
  csv_rows (snd (main (Demo.make (Some Demo.two_repos_json) (Some "true") Demo.hub Demo.git_ok)
                   Demo.used))
  = Some [header;
          ["2023-12-31"; "acme/app"; "40"];
          ["2024-01-01"; "acme/app"; "42"];
          ["2024-01-01"; "acme/db"; "1234567"]].
Proof.
  assert (Hs : Demo.two_repos_json <> "") by (intro H; vm_compute in H; discriminate H).
  assert (Hitems : [Demo.entry "acme" "app"; Demo.entry "acme" "db"] <> [])
    by (intro H; discriminate H).
  exact (proj2 (successful_run_appends_one_row_per_entry
                  (Demo.make (Some Demo.two_repos_json) (Some "true") Demo.hub Demo.git_ok)
                  Demo.used Demo.two_repos_json
                  [Demo.entry "acme" "app"; Demo.entry "acme" "db"]
                  [VInt 42; VInt 1234567]
                  eq_refl Hs eq_refl Hitems eq_refl eq_refl)).
Defined.

(** C2: [store_data] writes the header exactly when the file does not exist
    yet, and otherwise only adds rows after what the file holds, so that two
    calls in a row leave one header; no other method touches the file, and a
    whole execution leaves the file as it was or with rows added at its
    end. *)
Theorem ledger_is_append_only (w : world) :
  (forall self date data st,
      csv_rows (snd (store_data w self date data st))
      = Some (ledger_before st ++ map (ledger_row w date) data)%list) /\
  (forall self date1 data1 date2 data2 st,
      csv_rows (snd (store_data w self date2 data2
                       (snd (store_data w self date1 data1 st))))
      = Some (ledger_before st ++ map (ledger_row w date1) data1
                ++ map (ledger_row w date2) data2)%list) /\
  (forall st, csv_rows (snd (__init__ w st)) = csv_rows st) /\
  (forall u r st, csv_rows (snd (get_docker_downloads w u r st)) = csv_rows st) /\
  (forall changed_file st,
      csv_rows (snd (commit_and_push_changes w changed_file st)) = csv_rows st) /\
  (forall st,
      csv_rows (snd (main w st)) = csv_rows st \/
      exists rows, csv_rows (snd (main w st)) = Some (ledger_before st ++ rows)%list).
Proof.
  split; [| split; [| split; [| split; [| split]]]].
  - intros. rewrite store_data_result. reflexivity.
  - intros. rewrite !store_data_result. cbn [snd csv_rows with_log with_csv_rows].
    unfold ledger_before at 1. cbn [csv_rows with_log with_csv_rows].
    rewrite <- app_assoc. reflexivity.
  - apply __init___keeps_csv_rows.
  - intros u r. apply get_docker_downloads_keeps; reflexivity.
  - intro changed_file. apply commit_and_push_changes_keeps; reflexivity.
  - intro st. destruct (main_summary w st) as [urls [_ Hn]].
    destruct (count_fetched w (requests st) urls) as [| n].
    + left. exact (proj1 Hn).
    + right. destruct Hn as [[rows [_ Hcsv]] _]. exists rows. exact Hcsv.
Qed.

(** C3 fails on the code: with the configuration ["x", {acme/app}] the first
    entry has no [get]; the [except] clause then reads [username], which no
    iteration has assigned, and the [UnboundLocalError] leaves [run].  The
    second entry is never fetched and nothing is written. *)
Theorem first_entry_without_get_aborts_the_run :
  fst (run (Demo.make (Some Demo.string_first_json) None Demo.hub Demo.git_ok)
         (tracker_of (VList [VStr "x"; Demo.entry "acme" "app"])) Demo.fresh)
  = inr (UnboundLocalError "username") /\
  requests (snd (main (Demo.make (Some Demo.string_first_json) None Demo.hub Demo.git_ok)
                   Demo.fresh))
  = [] /\
  csv_rows (snd (main (Demo.make (Some Demo.string_first_json) None Demo.hub Demo.git_ok)
                   Demo.fresh))
  = None /\
  log (snd (main (Demo.make (Some Demo.string_first_json) None Demo.hub Demo.git_ok)
              Demo.fresh))
  = [(ERROR, "Application error: cannot access local variable 'username' where it is not associated with a value")].
Proof. repeat split; vm_compute; reflexivity. Qed.

(** C4: over a whole execution, the publish step is attempted exactly when
    GITHUB_ACTIONS is set (to a non-empty value) and at least one fetch
    succeeded; a ledger row is written exactly when at least one fetch
    succeeded.  Otherwise no command is spawned and the ledger is left as it
    was. *)
Theorem publish_iff_flag_and_rows (w : world) (st : state) :
  exists urls,
    requests (snd (main w st)) = (requests st ++ urls)%list /\
    (publish_attempted st (snd (main w st)) <->
     env_truthy (getenv w "GITHUB_ACTIONS") = true /\
     0 < count_fetched w (requests st) urls) /\
    (commands (snd (main w st)) = commands st <->
     ~ (env_truthy (getenv w "GITHUB_ACTIONS") = true /\
        0 < count_fetched w (requests st) urls)) /\
    (rows_written st (snd (main w st)) <-> 0 < count_fetched w (requests st) urls) /\
    (csv_rows (snd (main w st)) = csv_rows st <-> count_fetched w (requests st) urls = 0).
Proof.
  destruct (main_summary w st) as [urls [Hreq Hn]].
  exists urls. split; [exact Hreq |].
  unfold publish_attempted, rows_written.
  assert (Hgrow : forall more,
             commands (snd (main w st))
             = (commands st ++ ["git"; "config"; "user.name"; "GitHub Actions Bot"] :: more)%list ->
             commands (snd (main w st)) <> commands st).
  { intros more H H'. rewrite H in H'. exact (app_cons_neq _ _ _ H'). }
  assert (Hrows : forall r rows,
             csv_rows (snd (main w st)) = Some (ledger_before st ++ r :: rows)%list ->
             csv_rows (snd (main w st)) <> csv_rows st).
  { intros r rows H H'. rewrite H in H'. unfold ledger_before in H'.
    destruct (csv_rows st) as [old |]; [| discriminate].
    injection H' as H'. exact (app_cons_neq _ _ _ H'). }
  destruct (count_fetched w (requests st) urls) as [| n].
  - destruct Hn as [Hcsv Hcmd].
    split; [| split; [| split]]; split.
    + intros [more H]. destruct (Hgrow more H Hcmd).
    + intros [_ H]. lia.
    + intros _ [_ H]. lia.
    + intros _. exact Hcmd.
    + intros [r [rows H]]. destruct (Hrows r rows H Hcsv).
    + lia.
    + reflexivity.
    + intros _. exact Hcsv.
  - destruct Hn as [[rows [Hlen Hcsv]] Hcmd].
    destruct rows as [| r rows]; [discriminate |].
    split; [| split; [| split]]; split.
    + intros [more H]. split; [| lia].
      destruct (env_truthy (getenv w "GITHUB_ACTIONS")); [reflexivity |].
      destruct (Hgrow more H Hcmd).
    + intros [Hflag _]. rewrite Hflag in Hcmd. exact Hcmd.
    + intros H [Hflag _]. rewrite Hflag in Hcmd. destruct Hcmd as [more Hcmd].
      destruct (Hgrow more Hcmd H).
    + intro H. destruct (env_truthy (getenv w "GITHUB_ACTIONS")); [| exact Hcmd].
      exfalso. apply H. split; [reflexivity | lia].
    + lia.
    + intros _. exists r, rows. exact Hcsv.
    + intro H. destruct (Hrows r rows Hcsv H).
    + discriminate.
Qed.

(** C5: when the configuration fails to load (DOCKER_PROJECTS absent, its
    text malformed, or its value empty), the constructor raises before any
    other work; the program ends having issued no request to the registry,
    written nothing to the ledger, created no directory and spawned no
    command. *)
Theorem config_failure_does_no_work (w : world) (st : state) :
  (getenv w "DOCKER_PROJECTS" = None \/
   (exists s msg, getenv w "DOCKER_PROJECTS" = Some s /\ json_loads w s = inr msg) \/
   (exists s v, getenv w "DOCKER_PROJECTS" = Some s /\ json_loads w s = inl v /\
                truthy v = false)) ->
  (exists msg, __init__ w st = (inr (ValueError msg), st)) /\
  requests (snd (main w st)) = requests st /\
  csv_rows (snd (main w st)) = csv_rows st /\
  stats_dir_exists (snd (main w st)) = stats_dir_exists st /\
  commands (snd (main w st)) = commands st.
Proof.
  intro Hfail. destruct (__init___config_failure w st Hfail) as [msg Hinit].
  split; [exists msg; exact Hinit |].
  assert (Hrun : (tracker <- __init__ w ;; run w tracker) st = (inr (ValueError msg), st))
    by (unfold bind; rewrite Hinit; reflexivity).
  rewrite (main_keeps_after w requests), (main_keeps_after w csv_rows),
    (main_keeps_after w stats_dir_exists), (main_keeps_after w commands) by reflexivity.
  rewrite Hrun. repeat split; reflexivity.
Qed.

(** DOCKER_PROJECTS is absent. *)
Lemma config_failure_does_no_work_witness :
  requests (snd (main (Demo.make None (Some "true") Demo.hub Demo.git_ok) Demo.used)) = [] /\
  csv_rows (snd (main (Demo.make None (Some "true") Demo.hub Demo.git_ok) Demo.used))
  = Some [header; ["2023-12-31"; "acme/app"; "40"]].
Proof.
  pose proof (config_failure_does_no_work
                (Demo.make None (Some "true") Demo.hub Demo.git_ok) Demo.used
                (or_introl eq_refl)) as [_ [Hreq [Hcsv _]]].
  split; [exact Hreq | exact Hcsv].
Defined.

(** C6, as stated, fails in three ways.  A response with status 200 whose
    body is the empty JSON object makes [get_docker_downloads] raise
    [KeyError('pull_count')] and log nothing, because its [except] clause
    names only [RequestException].  A response with status 302, which is not
    a success status, is no failure: [raise_for_status] rejects the statuses
    from 400 to 599 only, and the count in the body is returned.  And the
    exception of a timeout leaves the function as it is, re-raised by a bare
    [raise]: nothing wraps it. *)
Lemma fetch_is_unlogged_unwrapped_and_lenient_on_status :
  (get_docker_downloads (Demo.make None None Demo.hub_without_count Demo.git_ok)
     (VStr "acme") (VStr "app") Demo.fresh
   = (inr (KeyError "pull_count"),
      after_request Demo.fresh "https://hub.docker.com/v2/repositories/acme/app/") /\
   log (after_request Demo.fresh "https://hub.docker.com/v2/repositories/acme/app/") = [] /\
   ~ every_fetch_failure_is_logged) /\
  (get_docker_downloads (Demo.make None None Demo.hub_redirect Demo.git_ok)
     (VStr "acme") (VStr "app") Demo.fresh
   = (inl (VInt 7),
      after_request Demo.fresh "https://hub.docker.com/v2/repositories/acme/app/") /\
   ~ every_non_success_status_fails) /\
  (registry (Demo.make None None Demo.hub_timeout Demo.git_ok) []
     "https://hub.docker.com/v2/repositories/acme/app/"
   = GetRaises (RequestException Timeout
                  "HTTPSConnectionPool(host='hub.docker.com', port=443): Read timed out. (read timeout=10)") /\
   fst (get_docker_downloads (Demo.make None None Demo.hub_timeout Demo.git_ok)
          (VStr "acme") (VStr "app") Demo.fresh)
   = inr (RequestException Timeout
            "HTTPSConnectionPool(host='hub.docker.com', port=443): Read timed out. (read timeout=10)") /\
   ~ every_fetch_failure_is_wrapped).
Proof.
  assert (Hmissing :
    get_docker_downloads (Demo.make None None Demo.hub_without_count Demo.git_ok)
      (VStr "acme") (VStr "app") Demo.fresh
    = (inr (KeyError "pull_count"),
       after_request Demo.fresh "https://hub.docker.com/v2/repositories/acme/app/"))
    by (vm_compute; reflexivity).
  assert (Hredirect :
    get_docker_downloads (Demo.make None None Demo.hub_redirect Demo.git_ok)
      (VStr "acme") (VStr "app") Demo.fresh
    = (inl (VInt 7),
       after_request Demo.fresh "https://hub.docker.com/v2/repositories/acme/app/"))
    by (vm_compute; reflexivity).
  assert (Htimeout :
    get_docker_downloads (Demo.make None None Demo.hub_timeout Demo.git_ok)
      (VStr "acme") (VStr "app") Demo.fresh
    = (inr (RequestException Timeout
              "HTTPSConnectionPool(host='hub.docker.com', port=443): Read timed out. (read timeout=10)"),
       snd (get_docker_downloads (Demo.make None None Demo.hub_timeout Demo.git_ok)
              (VStr "acme") (VStr "app") Demo.fresh)))
    by (vm_compute; reflexivity).
  split; [| split].
  - split; [exact Hmissing |]. split; [reflexivity |].
    intro Hall. destruct (Hall _ _ _ _ _ _ Hmissing) as [msg Hlog].
    cbn in Hlog. discriminate.
  - split; [exact Hredirect |].
    intro Hall.
    destruct (Hall (Demo.make None None Demo.hub_redirect Demo.git_ok)
                (VStr "acme") (VStr "app") Demo.fresh
                {| status_code := 302; reason := "Found";
                   body := inl (VDict [("pull_count", VInt 7)]) |} eq_refl)
      as [e He].
    + cbn. lia.
    + rewrite Hredirect in He. discriminate.
  - split; [reflexivity |]. split; [rewrite Htimeout; reflexivity |].
    intro Hall.
    exact (Hall (Demo.make None None Demo.hub_timeout Demo.git_ok)
             (VStr "acme") (VStr "app") Demo.fresh _ _ _ eq_refl Htimeout eq_refl).
Qed.

(** C6, amended: [get_docker_downloads] issues exactly one request whatever
    happens (it never retries).  It fails when the request raises (a timeout
    among the exceptions of requests), when the status is one from 400 to
    599, and when the body has no "pull_count"; any other status is no
    failure, and a body with "pull_count" then gives the count.  The
    exception that leaves the function is the underlying one itself.  In the
    first two cases one ERROR entry is added to the log before it leaves; in
    the third the [KeyError] leaves with nothing logged. *)
Theorem get_docker_downloads_failures (w : world) (u r : value) (st : state) :
  let url := repository_url w u r in
  requests (snd (get_docker_downloads w u r st)) = (requests st ++ [url])%list /\
  (forall kind msg,
      registry w (requests st) url = GetRaises (RequestException kind msg) ->
      get_docker_downloads w u r st
      = (inr (RequestException kind msg),
         after_error_log (after_request st url)
           (fetch_failure_msg w u r (RequestException kind msg)))) /\
  (forall resp,
      registry w (requests st) url = GetResponse resp ->
      (400 <= status_code resp < 600)%Z ->
      exists msg,
        get_docker_downloads w u r st
        = (inr (RequestException HTTPError msg),
           after_error_log (after_request st url)
             (fetch_failure_msg w u r (RequestException HTTPError msg)))) /\
  (forall resp kvs,
      registry w (requests st) url = GetResponse resp ->
      ~ (400 <= status_code resp < 600)%Z ->
      body resp = inl (VDict kvs) ->
      dict_get "pull_count" kvs = None ->
      get_docker_downloads w u r st = (inr (KeyError "pull_count"), after_request st url)) /\
  (forall resp kvs v,
      registry w (requests st) url = GetResponse resp ->
      ~ (400 <= status_code resp < 600)%Z ->
      body resp = inl (VDict kvs) ->
      dict_get "pull_count" kvs = Some v ->
      get_docker_downloads w u r st = (inl v, after_request st url)).
Proof.
  intro url. split; [apply get_docker_downloads_requests |].
  unfold get_docker_downloads, try_except, bind, requests_get, eval, raise, ret,
    logging_error.
  fold (repository_url w u r). fold url.
  split; [| split; [| split]].
  - intros kind msg Hreg. rewrite Hreg. reflexivity.
  - intros resp Hreg Hcode. rewrite Hreg.
    destruct (raise_for_status_cases url resp (after_request st url))
      as [[Hs Hr] | [Hs [msg Hr]]].
    + apply andb_false_iff in Hs. destruct Hs as [Hs | Hs];
        [apply Z.leb_gt in Hs | apply Z.ltb_ge in Hs]; lia.
    + exists msg. unfold after_request in Hr. rewrite Hr. reflexivity.
  - intros resp kvs Hreg Hcode Hbody Hkey. rewrite Hreg.
    destruct (raise_for_status_cases url resp (after_request st url))
      as [[Hs Hr] | [Hs [msg Hr]]].
    + unfold after_request in Hr. rewrite Hr, Hbody.
      cbn [py_getitem]. rewrite Hkey. reflexivity.
    + apply andb_true_iff in Hs. destruct Hs as [Hs1 Hs2].
      apply Z.leb_le in Hs1. apply Z.ltb_lt in Hs2. lia.
  - intros resp kvs v Hreg Hcode Hbody Hkey. rewrite Hreg.
    destruct (raise_for_status_cases url resp (after_request st url))
      as [[Hs Hr] | [Hs [msg Hr]]].
    + unfold after_request in Hr. rewrite Hr, Hbody.
      cbn [py_getitem]. rewrite Hkey. reflexivity.
    + apply andb_true_iff in Hs. destruct Hs as [Hs1 Hs2].
      apply Z.leb_le in Hs1. apply Z.ltb_lt in Hs2. lia.
Qed.

(** A timeout, a 404, a body without "pull_count" and a 302 with one. *)
Lemma get_docker_downloads_failures_witness :
  get_docker_downloads (Demo.make None None Demo.hub_timeout Demo.git_ok)
    (VStr "acme") (VStr "app") Demo.fresh
  = (inr (RequestException Timeout
            "HTTPSConnectionPool(host='hub.docker.com', port=443): Read timed out. (read timeout=10)"),
     after_error_log
       (after_request Demo.fresh "https://hub.docker.com/v2/repositories/acme/app/")
       ("Failed to fetch Docker Hub data for acme/app: "
          ++ "HTTPSConnectionPool(host='hub.docker.com', port=443): Read timed out. (read timeout=10)")) /\
  (exists msg,
      get_docker_downloads (Demo.make None None Demo.hub Demo.git_ok)
        (VStr "acme") (VStr "web") Demo.fresh
      = (inr (RequestException HTTPError msg),
         after_error_log
           (after_request Demo.fresh "https://hub.docker.com/v2/repositories/acme/web/")
           (fetch_failure_msg (Demo.make None None Demo.hub Demo.git_ok)
              (VStr "acme") (VStr "web") (RequestException HTTPError msg)))) /\
  get_docker_downloads (Demo.make None None Demo.hub_without_count Demo.git_ok)
    (VStr "acme") (VStr "app") Demo.fresh
  = (inr (KeyError "pull_count"),
     after_request Demo.fresh "https://hub.docker.com/v2/repositories/acme/app/") /\
  get_docker_downloads (Demo.make None None Demo.hub_redirect Demo.git_ok)
    (VStr "acme") (VStr "app") Demo.fresh
  = (inl (VInt 7),
     after_request Demo.fresh "https://hub.docker.com/v2/repositories/acme/app/").
Proof.
  split; [| split; [| split]].
  - apply (proj1 (proj2 (get_docker_downloads_failures
                           (Demo.make None None Demo.hub_timeout Demo.git_ok)
                           (VStr "acme") (VStr "app") Demo.fresh))).
    reflexivity.
  - apply (proj1 (proj2 (proj2 (get_docker_downloads_failures
                                  (Demo.make None None Demo.hub Demo.git_ok)
                                  (VStr "acme") (VStr "web") Demo.fresh)))
             {| status_code := 404; reason := "Not Found";
                body := inl (VDict [("message", VStr "object not found")]) |}).
    + reflexivity.
    + cbn. lia.
  - apply (proj1 (proj2 (proj2 (proj2 (get_docker_downloads_failures
                                  (Demo.make None None Demo.hub_without_count Demo.git_ok)
                                  (VStr "acme") (VStr "app") Demo.fresh))))
             {| status_code := 200; reason := "OK"; body := inl (VDict []) |} []).
    + reflexivity.
    + cbn. lia.
    + reflexivity.
    + reflexivity.
  - apply (proj2 (proj2 (proj2 (proj2 (get_docker_downloads_failures
                                  (Demo.make None None Demo.hub_redirect Demo.git_ok)
                                  (VStr "acme") (VStr "app") Demo.fresh))))
             {| status_code := 302; reason := "Found";
                body := inl (VDict [("pull_count", VInt 7)]) |}
             [("pull_count", VInt 7)] (VInt 7)).
    + reflexivity.
    + cbn. lia.
    + reflexivity.
    + reflexivity.
Defined.

(** C7 fails on the code: [git push] exits with status 1, yet
    [commit_and_push_changes] returns normally and logs success, and the run
    that called it ends without any error. *)
Theorem rejected_push_is_reported_as_success :
  spawn (Demo.make (Some Demo.two_repos_json) (Some "true") Demo.hub Demo.git_push_rejected)
    [["git"; "config"; "user.name"; "GitHub Actions Bot"];
     ["git"; "config"; "user.email"; "actions@github.com"];
     ["git"; "add"; "stats/docker_downloads.csv"];
     ["git"; "commit"; "-m"; "Update download stats for 2024-01-01"]]
    ["git"; "push"]
  = Completed 1 /\
  fst (commit_and_push_changes
         (Demo.make (Some Demo.two_repos_json) (Some "true") Demo.hub Demo.git_push_rejected)
         "stats/docker_downloads.csv" Demo.used)
  = inl tt /\
  log (snd (commit_and_push_changes
              (Demo.make (Some Demo.two_repos_json) (Some "true") Demo.hub
                 Demo.git_push_rejected)
              "stats/docker_downloads.csv" Demo.used))
  = [(INFO, "Successfully committed and pushed changes to GitHub")] /\
  fst (run (Demo.make (Some Demo.two_repos_json) (Some "true") Demo.hub Demo.git_push_rejected)
         (tracker_of (VList [Demo.entry "acme" "app"; Demo.entry "acme" "db"])) Demo.used)
  = inl tt.
Proof. repeat split; vm_compute; reflexivity. Qed.

(** A publish step that raises, which only a git command that cannot be
    started brings about: when the loop collected at least one entry,
    GITHUB_ACTIONS is set and [commit_and_push_changes] raises, [run] raises
    the aggregate error whose last message is "Failed to commit changes: ..."
    after the messages of the loop, and the ledger still holds exactly what
    [store_data] left in it: its earlier content followed by the rows of
    this run. *)
Lemma publish_failure_keeps_the_rows (w : world) (self : tracker) (st st1 st3 : state)
    (f1 : frame) (e : exn) :
  collect w self (at_loop_start st) = (inl tt, (st1, f1)) ->
  downloads_data f1 <> [] ->
  env_truthy (getenv w "GITHUB_ACTIONS") = true ->
  commit_and_push_changes w (csv_file self)
    (snd (store_data w self (strftime_now w (clock_reads st)) (downloads_data f1) st1))
  = (inr e, st3) ->
  run w self st
  = (inr (Exception
            (String.concat nl
               (errors f1 ++ [("Failed to commit changes: " ++ str_exn e)%string])%list)),
     st3) /\
  csv_rows st3
  = csv_rows (snd (store_data w self (strftime_now w (clock_reads st)) (downloads_data f1) st1)) /\
  csv_rows st3
  = Some (ledger_before st
            ++ map (ledger_row w (strftime_now w (clock_reads st))) (downloads_data f1))%list.
Proof.
  intros Hcollect Hdd Hflag Hpush.
  pose proof (collect_keeps w csv_rows self (fun _ _ => eq_refl)
                (fun _ _ => eq_refl) (fun _ _ => eq_refl) (at_loop_start st)) as Hcsv.
  rewrite Hcollect in Hcsv. cbn [fst snd at_loop_start with_clock_reads csv_rows] in Hcsv.
  pose proof (commit_and_push_changes_keeps w csv_rows (csv_file self) (fun _ _ => eq_refl)
                (fun _ _ => eq_refl) (fun _ _ => eq_refl)
                (snd (store_data w self (strftime_now w (clock_reads st))
                        (downloads_data f1) st1))) as Hkeep.
  rewrite Hpush in Hkeep. cbn [snd] in Hkeep.
  split; [| split; [exact Hkeep |]].
  - rewrite run_eq, Hcollect.
    destruct (downloads_data f1) as [| d ds]; [contradiction |].
    cbn zeta. unfold published. rewrite Hflag, Hpush.
    unfold report. destruct (errors f1); reflexivity.
  - rewrite Hkeep, store_data_result. cbn [snd csv_rows with_log with_csv_rows].
    unfold ledger_before. rewrite Hcsv. reflexivity.
Qed.

(** Two repositories fetched, and no git executable to publish with. *)
Lemma publish_failure_keeps_the_rows_witness :
  fst (run (Demo.make (Some Demo.two_repos_json) (Some "true") Demo.hub Demo.git_missing)
         (tracker_of (VList [Demo.entry "acme" "app"; Demo.entry "acme" "db"])) Demo.used)
  = inr (Exception "Failed to commit changes: [Errno 2] No such file or directory: 'git'") /\
  csv_rows
    (snd (run (Demo.make (Some Demo.two_repos_json) (Some "true") Demo.hub Demo.git_missing)
            (tracker_of (VList [Demo.entry "acme" "app"; Demo.entry "acme" "db"])) Demo.used))
  = Some [header;
          ["2023-12-31"; "acme/app"; "40"];
          ["2024-01-01"; "acme/app"; "42"];
          ["2024-01-01"; "acme/db"; "1234567"]].
Proof.
  pose (w := Demo.make (Some Demo.two_repos_json) (Some "true") Demo.hub Demo.git_missing).
  pose (self := tracker_of (VList [Demo.entry "acme" "app"; Demo.entry "acme" "db"])).
  pose (c := collect w self (at_loop_start Demo.used)).
  pose (p := commit_and_push_changes w (csv_file self)
               (snd (store_data w self (strftime_now w (clock_reads Demo.used))
                       (downloads_data (snd (snd c))) (fst (snd c))))).
  assert (Hcollect : collect w self (at_loop_start Demo.used)
                     = (inl tt, (fst (snd c), snd (snd c))))
    by (vm_compute; reflexivity).
  assert (Hdd : downloads_data (snd (snd c)) <> [])
    by (intro H; vm_compute in H; discriminate H).
  assert (Hpush : commit_and_push_changes w (csv_file self)
                    (snd (store_data w self (strftime_now w (clock_reads Demo.used))
                            (downloads_data (snd (snd c))) (fst (snd c))))
                  = (inr (OSError "[Errno 2] No such file or directory: 'git'"), snd p))
    by (vm_compute; reflexivity).
  destruct (publish_failure_keeps_the_rows w self Demo.used (fst (snd c)) (snd p)
              (snd (snd c)) (OSError "[Errno 2] No such file or directory: 'git'")
              Hcollect Hdd eq_refl Hpush) as [Hrun [_ Hcsv]].
  fold w self. rewrite Hrun. cbn [fst snd]. split; [reflexivity |]. exact Hcsv.
Defined.

(** C8 fails on the code: the ledger is written and then [git push] exits
    with status 1.  The rows of the run stay in the ledger, as the claim
    says, but the failed publish adds no message to the error list: the list
    is empty when [run] ends, so [run] raises nothing, and the log holds no
    ERROR entry and ends with the two entries of success.  The defect is the
    one of C7: the exit status of a git command is never read. *)
Theorem rejected_push_adds_no_error_message :
  spawn (Demo.make (Some Demo.two_repos_json) (Some "true") Demo.hub Demo.git_push_rejected)
    [["git"; "config"; "user.name"; "GitHub Actions Bot"];
     ["git"; "config"; "user.email"; "actions@github.com"];
     ["git"; "add"; "stats/docker_downloads.csv"];
     ["git"; "commit"; "-m"; "Update download stats for 2024-01-01"]]
    ["git"; "push"]
  = Completed 1 /\
  csv_rows Demo.used = Some [header; ["2023-12-31"; "acme/app"; "40"]] /\
  csv_rows (snd (run (Demo.make (Some Demo.two_repos_json) (Some "true") Demo.hub Demo.git_push_rejected)
                   (tracker_of (VList [Demo.entry "acme" "app"; Demo.entry "acme" "db"])) Demo.used))
  = Some [header;
          ["2023-12-31"; "acme/app"; "40"];
          ["2024-01-01"; "acme/app"; "42"];
          ["2024-01-01"; "acme/db"; "1234567"]] /\
  errors (snd (snd (run_body (Demo.make (Some Demo.two_repos_json) (Some "true") Demo.hub Demo.git_push_rejected)
                      (tracker_of (VList [Demo.entry "acme" "app"; Demo.entry "acme" "db"])) (Demo.used, initial_frame))))
  = [] /\
  fst (run (Demo.make (Some Demo.two_repos_json) (Some "true") Demo.hub Demo.git_push_rejected)
         (tracker_of (VList [Demo.entry "acme" "app"; Demo.entry "acme" "db"])) Demo.used)
  = inl tt /\
  log (snd (run (Demo.make (Some Demo.two_repos_json) (Some "true") Demo.hub Demo.git_push_rejected)
              (tracker_of (VList [Demo.entry "acme" "app"; Demo.entry "acme" "db"])) Demo.used))
  = [(INFO, "Processing acme/app");
     (INFO, "Processing acme/db");
     (INFO, "Stored download counts for 2 repositories");
     (INFO, "Successfully committed and pushed changes to GitHub");
     (INFO, "Script completed successfully")].
Proof. repeat split; vm_compute; reflexivity. Qed.


(** C9 fails on the code: with the configuration [{acme/app}, "x"] the fetch
    of acme/app succeeds and its row is written; the failure of the second
    entry is then logged under the names the first iteration left in
    [username] and [repository], as an error of acme/app. *)
Theorem failure_is_logged_under_the_previous_repository :
  log (snd (main (Demo.make (Some Demo.string_last_json) None Demo.hub Demo.git_ok)
              Demo.fresh))
  = [(INFO, "Processing acme/app");
     (ERROR, "Error processing acme/app: 'str' object has no attribute 'get'");
     (INFO, "Created new CSV file for tracking downloads");
     (INFO, "Stored download counts for 1 repositories");
     (ERROR, "Application error: Error processing acme/app: 'str' object has no attribute 'get'")] /\
  csv_rows (snd (main (Demo.make (Some Demo.string_last_json) None Demo.hub Demo.git_ok)
                   Demo.fresh))
  = Some [header; ["2024-01-01"; "acme/app"; "42"]].
Proof. repeat split; vm_compute; reflexivity. Qed.




(** ** Further properties *)

(** X1: [_load_projects] leaves the state alone and returns the parsed value
    exactly when DOCKER_PROJECTS holds a non-empty text that parses to a
    true value.  An absent or empty variable is reported as "not set" (an
    empty text is never handed to the parser), a text that does not parse as
    "Invalid JSON", and a value that is false, such as [[]], [{}], [null] or
    [0], as "No projects defined". *)
Theorem load_projects_outcomes (w : world) (st : state) :
  snd (_load_projects w st) = st /\
  (forall v,
      fst (_load_projects w st) = inl v <->
      exists s, getenv w "DOCKER_PROJECTS" = Some s /\ s <> "" /\
                json_loads w s = inl v /\ truthy v = true) /\
  (env_truthy (getenv w "DOCKER_PROJECTS") = false ->
   fst (_load_projects w st)
   = inr (ValueError "DOCKER_PROJECTS environment variable is not set")) /\
  (forall s msg,
      getenv w "DOCKER_PROJECTS" = Some s -> s <> "" -> json_loads w s = inr msg ->
      fst (_load_projects w st)
      = inr (ValueError ("Invalid JSON in DOCKER_PROJECTS: " ++ msg))) /\
  (forall s v,
      getenv w "DOCKER_PROJECTS" = Some s -> s <> "" -> json_loads w s = inl v ->
      truthy v = false ->
      fst (_load_projects w st) = inr (ValueError "No projects defined in DOCKER_PROJECTS")).
Proof.
  split; [apply _load_projects_state |].
  unfold _load_projects, os_getenv, bind, ret, raise.
  destruct (getenv w "DOCKER_PROJECTS") as [s |] eqn:Henv; cbn [env_truthy negb].
  - destruct (String.eqb_spec s "") as [-> | Hs]; cbn [negb fst].
    + split; [| split; [| split]].
      * intro v. split; [discriminate |].
        intros [s' [Hs' [Hne _]]]. injection Hs' as <-. contradiction.
      * reflexivity.
      * intros s' msg Hs' Hne. injection Hs' as <-. contradiction.
      * intros s' v Hs' Hne. injection Hs' as <-. contradiction.
    + split; [| split; [discriminate | split]].
      * intro v. destruct (json_loads w s) as [v' | msg] eqn:Hload.
        -- destruct (truthy v') eqn:Hv; cbn [negb fst]; split.
           ++ intro H. injection H as <-. exists s. repeat split; assumption.
           ++ intros [s' [Hs' [_ [Hl _]]]]. injection Hs' as <-. congruence.
           ++ discriminate.
           ++ intros [s' [Hs' [_ [Hl Ht]]]]. injection Hs' as <-. congruence.
        -- cbn [fst]. split; [discriminate |].
           intros [s' [Hs' [_ [Hl _]]]]. injection Hs' as <-. congruence.
      * intros s' msg Hs' _ Hl. injection Hs' as <-. rewrite Hl. reflexivity.
      * intros s' v Hs' _ Hl Ht. injection Hs' as <-. rewrite Hl, Ht. reflexivity.
  - split; [| split; [reflexivity | split]].
    + intro v. split; [discriminate |]. intros [s [Hs _]]. discriminate.
    + intros s msg Hs. discriminate.
    + intros s v Hs. discriminate.
Qed.

Lemma load_projects_outcomes_witness :
  fst (_load_projects (Demo.make (Some "") None Demo.hub Demo.git_ok) Demo.fresh)
  = inr (ValueError "DOCKER_PROJECTS environment variable is not set") /\
  fst (_load_projects (Demo.make (Some "{") None Demo.hub Demo.git_ok) Demo.fresh)
  = inr (ValueError "Invalid JSON in DOCKER_PROJECTS: Expecting value: line 1 column 1 (char 0)") /\
  fst (_load_projects (Demo.make (Some "[]") None Demo.hub Demo.git_ok) Demo.fresh)
  = inr (ValueError "No projects defined in DOCKER_PROJECTS").
Proof.
  split; [| split].
  - apply (proj1 (proj2 (proj2 (load_projects_outcomes
                                  (Demo.make (Some "") None Demo.hub Demo.git_ok) Demo.fresh)))).
    reflexivity.
  - apply (proj1 (proj2 (proj2 (proj2 (load_projects_outcomes
             (Demo.make (Some "{") None Demo.hub Demo.git_ok) Demo.fresh))))
             "{" "Expecting value: line 1 column 1 (char 0)").
    + reflexivity.
    + intro H. discriminate H.
    + reflexivity.
  - apply (proj2 (proj2 (proj2 (proj2 (load_projects_outcomes
             (Demo.make (Some "[]") None Demo.hub Demo.git_ok) Demo.fresh))))
             "[]" (VList [])).
    + reflexivity.
    + intro H. discriminate H.
    + reflexivity.
    + reflexivity.
Defined.

(** X2: when the constructor returns, it has created the stats directory and
    changed nothing else; its ledger path is stats/docker_downloads.csv and
    its configuration is the parsed value of DOCKER_PROJECTS, which is true,
    so that iterating it never gives the empty sequence. *)
Theorem init_success (w : world) (st st' : state) (self : tracker) :
  __init__ w st = (inl self, st') ->
  st' = with_stats_dir st true /\
  stats_dir self = "stats" /\
  csv_file self = "stats/docker_downloads.csv" /\
  (exists s, getenv w "DOCKER_PROJECTS" = Some s /\ json_loads w s = inl (projects self)) /\
  truthy (projects self) = true /\
  py_iter (projects self) <> inl [].
Proof.
  unfold __init__. unfold bind at 1.
  pose proof (load_projects_outcomes w st) as [Hst [Hok _]].
  destruct (_load_projects w st) as [[v | e] st1] eqn:Hload; cbn [fst snd] in *;
    [| discriminate].
  subst st1. unfold bind, mkdir, ret. intro H. injection H as <- <-.
  destruct (proj1 (Hok v) eq_refl) as [s [Henv [_ [Hjson Htruthy]]]].
  cbn [projects stats_dir csv_file].
  repeat split; try assumption; try reflexivity.
  - exists s. split; assumption.
  - apply truthy_iterates, Htruthy.
Qed.

Lemma init_success_witness :
  truthy (VList [Demo.entry "acme" "app"; Demo.entry "acme" "db"]) = true /\
  py_iter (VList [Demo.entry "acme" "app"; Demo.entry "acme" "db"]) <> inl [].
Proof.
  destruct (init_success (Demo.make (Some Demo.two_repos_json) None Demo.hub Demo.git_ok)
              Demo.fresh (with_stats_dir Demo.fresh true)
              (tracker_of (VList [Demo.entry "acme" "app"; Demo.entry "acme" "db"]))
              eq_refl) as [_ [_ [_ [_ [Htruthy Hiter]]]]].
  split; [exact Htruthy | exact Hiter].
Defined.

(** X3: [get_docker_downloads] returns [v] exactly when the registry answers
    its one request with a status outside 400..599 and a JSON body whose
    "pull_count" is [v]; the only trace it then leaves is the request to
    https://hub.docker.com/v2/repositories/username/repository/ (nothing is
    logged). *)
Theorem get_docker_downloads_returns (w : world) (u r v : value) (st : state) :
  (fst (get_docker_downloads w u r st) = inl v <->
   fetched (registry w (requests st) (repository_url w u r)) = Some v) /\
  (fst (get_docker_downloads w u r st) = inl v ->
   snd (get_docker_downloads w u r st) = after_request st (repository_url w u r)).
Proof.
  split; [split |].
  - apply returned_count_was_fetched.
  - intro Hf. rewrite (get_docker_downloads_fetched w u r v st Hf). reflexivity.
  - intro H. apply returned_count_was_fetched in H.
    rewrite (get_docker_downloads_fetched w u r v st H). reflexivity.
Qed.

Lemma get_docker_downloads_returns_witness :
  snd (get_docker_downloads (Demo.make None None Demo.hub Demo.git_ok)
         (VStr "acme") (VStr "app") Demo.fresh)
  = after_request Demo.fresh "https://hub.docker.com/v2/repositories/acme/app/".
Proof.
  apply (proj2 (get_docker_downloads_returns (Demo.make None None Demo.hub Demo.git_ok)
                  (VStr "acme") (VStr "app") (VInt 42) Demo.fresh)).
  reflexivity.
Defined.

(** X4: whatever exception leaves [get_docker_downloads], the state it leaves
    is the one after its single request, with one ERROR entry "Failed to fetch
    Docker Hub data for username/repository: ..." added exactly when the
    exception is a [RequestException]. *)
Theorem get_docker_downloads_logs_request_errors_only (w : world) (u r : value)
    (st st' : state) (e : exn) :
  get_docker_downloads w u r st = (inr e, st') ->
  st' = if is_request_exception e
        then after_error_log (after_request st (repository_url w u r))
               (fetch_failure_msg w u r e)
        else after_request st (repository_url w u r).
Proof. apply get_docker_downloads_failure_state. Qed.

Lemma get_docker_downloads_logs_request_errors_only_witness :
  after_request Demo.fresh "https://hub.docker.com/v2/repositories/acme/app/"
  = after_request Demo.fresh
      (repository_url (Demo.make None None Demo.hub_without_count Demo.git_ok)
         (VStr "acme") (VStr "app")).
Proof.
  exact (get_docker_downloads_logs_request_errors_only
           (Demo.make None None Demo.hub_without_count Demo.git_ok)
           (VStr "acme") (VStr "app") Demo.fresh
           (after_request Demo.fresh "https://hub.docker.com/v2/repositories/acme/app/")
           (KeyError "pull_count") eq_refl).
Defined.

(** X5: [store_data] always returns the ledger path; it logs "Created new
    CSV file ..." only when the file did not exist, then "Stored download
    counts for N repositories" with N the number of entries it was given;
    the ledger grows by exactly N rows; standard output, the requests, the
    commands and the clock are left alone. *)
Theorem store_data_effects (w : world) (self : tracker) (date : string)
    (data : list download) (st : state) :
  fst (store_data w self date data st) = inl (csv_file self) /\
  log (snd (store_data w self date data st))
  = (log st
       ++ (match csv_rows st with
           | Some _ => []
           | None => [(INFO, "Created new CSV file for tracking downloads")]
           end)
       ++ [(INFO, ("Stored download counts for " ++ str_nat (length data)
                     ++ " repositories")%string)])%list /\
  length (ledger_before (snd (store_data w self date data st)))
  = length (ledger_before st) + length data /\
  stdout (snd (store_data w self date data st)) = stdout st /\
  requests (snd (store_data w self date data st)) = requests st /\
  commands (snd (store_data w self date data st)) = commands st /\
  clock_reads (snd (store_data w self date data st)) = clock_reads st.
Proof.
  rewrite store_data_result. cbn [fst snd]. unfold store_log.
  repeat split.
  unfold ledger_before at 1. cbn [csv_rows with_log with_csv_rows].
  rewrite length_app, length_map. reflexivity.
Qed.

(** X6: when every command can be started, [commit_and_push_changes] spawns
    its five commands in order (git config user.name, git config user.email,
    git add of the given path, git commit with the date read at that moment,
    git push), returns normally and logs success, whatever the return codes
    of the commands. *)
Theorem publish_ignores_return_codes (w : world) (changed_file : string) (st : state) :
  (forall history args, exists rc, spawn w history args = Completed rc) ->
  fst (commit_and_push_changes w changed_file st) = inl tt /\
  commands (snd (commit_and_push_changes w changed_file st))
  = (commands st ++ publish_commands changed_file (strftime_now w (clock_reads st)))%list /\
  log (snd (commit_and_push_changes w changed_file st))
  = (log st ++ [(INFO, "Successfully committed and pushed changes to GitHub")])%list.
Proof.
  intro Hall. rewrite (commit_and_push_changes_all_started w changed_file st Hall).
  repeat split.
Qed.

Lemma publish_ignores_return_codes_witness :
  fst (commit_and_push_changes (Demo.make None (Some "true") Demo.hub Demo.git_failing)
         "stats/docker_downloads.csv" Demo.fresh)
  = inl tt /\
  commands (snd (commit_and_push_changes
                   (Demo.make None (Some "true") Demo.hub Demo.git_failing)
                   "stats/docker_downloads.csv" Demo.fresh))
  = publish_commands "stats/docker_downloads.csv" "2024-01-01".
Proof.
  destruct (publish_ignores_return_codes
              (Demo.make None (Some "true") Demo.hub Demo.git_failing)
              "stats/docker_downloads.csv" Demo.fresh
              (fun _ _ => ex_intro _ 128%Z eq_refl)) as [Hret [Hcmds _]].
  split; [exact Hret | exact Hcmds].
Defined.

(** X7: an exception leaves [commit_and_push_changes] only when one of its
    five commands cannot be started: it is the exception of that command, no
    later command is spawned, and exactly one ERROR entry "Failed to commit
    and push changes: ..." is logged. *)
Theorem publish_stops_at_first_unstartable_command (w : world) (changed_file : string)
    (st st' : state) (e : exn) :
  commit_and_push_changes w changed_file st = (inr e, st') ->
  exists n,
    n < 5 /\
    commands st'
    = (commands st
         ++ firstn (S n) (publish_commands changed_file (strftime_now w (clock_reads st))))%list /\
    spawn w
      (commands st
         ++ firstn n (publish_commands changed_file (strftime_now w (clock_reads st))))%list
      (nth n (publish_commands changed_file (strftime_now w (clock_reads st))) [])
    = SpawnError e /\
    log st' = (log st ++ [(ERROR, ("Failed to commit and push changes: " ++ str_exn e)%string)])%list.
Proof. apply commit_and_push_changes_failure. Qed.

Lemma publish_stops_at_first_unstartable_command_witness :
  exists n,
    n < 5 /\
    commands (snd (commit_and_push_changes
                     (Demo.make None (Some "true") Demo.hub Demo.git_missing)
                     "stats/docker_downloads.csv" Demo.fresh))
    = firstn (S n) (publish_commands "stats/docker_downloads.csv" "2024-01-01").
Proof.
  destruct (publish_stops_at_first_unstartable_command
              (Demo.make None (Some "true") Demo.hub Demo.git_missing)
              "stats/docker_downloads.csv" Demo.fresh
              (snd (commit_and_push_changes
                      (Demo.make None (Some "true") Demo.hub Demo.git_missing)
                      "stats/docker_downloads.csv" Demo.fresh))
              (OSError "[Errno 2] No such file or directory: 'git'") eq_refl)
    as [n [Hn [Hcmds _]]].
  exists n. split; [exact Hn | exact Hcmds].
Defined.

(** X8: when the configuration is a list whose first entry is a dict, a whole
    execution requests each valid entry exactly once, in configuration order,
    and requests nothing for the other entries, whatever the outcome of any
    entry. *)
Theorem every_valid_entry_is_requested_once (w : world) (st : state) (s : string)
    (kvs : list (string * value)) (rest : list value) :
  getenv w "DOCKER_PROJECTS" = Some s ->
  s <> "" ->
  json_loads w s = inl (VList (VDict kvs :: rest)) ->
  requests (snd (main w st))
  = (requests st ++ map (entry_url w) (filter valid_project (VDict kvs :: rest)))%list.
Proof.
  intros Henv Hs Hload.
  rewrite (main_keeps_after w requests) by reflexivity.
  unfold bind at 1.
  rewrite (__init___loaded w st s _ Henv Hs Hload eq_refl).
  rewrite (run_keeps_after_collect w requests) by reflexivity.
  rewrite (collect_list w _ (VDict kvs :: rest)) by reflexivity.
  destruct (for_each_requests_dict_first w kvs rest
              (fst (at_loop_start (with_stats_dir st true))) initial_frame)
    as [st' [f' [Hloop Hreq]]].
  unfold at_loop_start in *. cbn [fst] in Hloop. rewrite Hloop. cbn [fst snd].
  exact Hreq.
Qed.

Lemma every_valid_entry_is_requested_once_witness :
  requests (snd (main (Demo.make (Some Demo.string_last_json) None Demo.hub Demo.git_ok)
                   Demo.fresh))
  = ["https://hub.docker.com/v2/repositories/acme/app/"].
Proof.
  refine (every_valid_entry_is_requested_once
            (Demo.make (Some Demo.string_last_json) None Demo.hub Demo.git_ok)
            Demo.fresh Demo.string_last_json
            [("username", VStr "acme"); ("repository", VStr "app")] [VStr "x"]
            eq_refl _ eq_refl).
  intro H. vm_compute in H. discriminate H.
Defined.



(** Why the next two properties ask that standard output accepts the lines:
    a repository whose user name holds a lone surrogate is fetched and
    collected, but the line that names it cannot be encoded, so the loop
    body records the entry and the error of [print], and prints nothing. *)
Lemma unprintable_name_is_collected_and_reported :
  valid_project (Demo.entry Demo.lone_surrogate "app") = true /\
  fst (process_project (Demo.make None None Demo.hub_redirect Demo.git_ok)
         (Demo.entry Demo.lone_surrogate "app") (Demo.fresh, initial_frame))
  = inl tt /\
  downloads_data
    (snd (snd (process_project (Demo.make None None Demo.hub_redirect Demo.git_ok)
                 (Demo.entry Demo.lone_surrogate "app") (Demo.fresh, initial_frame))))
  = [download_of (Demo.entry Demo.lone_surrogate "app", VInt 7)] /\
  errors
    (snd (snd (process_project (Demo.make None None Demo.hub_redirect Demo.git_ok)
                 (Demo.entry Demo.lone_surrogate "app") (Demo.fresh, initial_frame))))
  = [error_msg (Demo.make None None Demo.hub_redirect Demo.git_ok)
       (VStr Demo.lone_surrogate) (VStr "app")
       (UnicodeEncodeError "'utf-8' codec can't encode character: surrogates not allowed")] /\
  stdout
    (fst (snd (process_project (Demo.make None None Demo.hub_redirect Demo.git_ok)
                 (Demo.entry Demo.lone_surrogate "app") (Demo.fresh, initial_frame))))
  = [].
Proof. repeat split; vm_compute; reflexivity. Qed.

(** X10: when every entry is valid, every fetch yields an integer, standard
    output accepts the lines to print and every git command can be started,
    [run] returns normally, its last log entry is "Script completed
    successfully", and it has printed, per entry and in order, the line
    "Docker Hub Statistics for username/repository" (after an empty line) and
    the line "Current Downloads: " with the count grouped by thousands. *)
Theorem run_succeeds (w : world) (self : tracker) (st : state) (items : list value)
    (zs : list Z) :
  projects self = VList items ->
  forallb valid_project items = true ->
  fetched_all w (requests st) (map (entry_url w) items) = Some (map VInt zs) ->
  Forall (fun line => stdout_write w line = None)
         (concat (map (stat_lines w) (combine items zs))) ->
  (forall history args, exists rc, spawn w history args = Completed rc) ->
  fst (run w self st) = inl tt /\
  stdout (snd (run w self st))
  = (stdout st ++ concat (map (stat_lines w) (combine items zs)))%list /\
  exists entries,
    log (snd (run w self st))
    = (entries ++ [(INFO, "Script completed successfully")])%list.
Proof.
  intros Hp Hvalid Hall Hlines Hgit.
  destruct (for_each_happy w items zs (fst (at_loop_start st)) initial_frame Hvalid Hall
              Hlines)
    as [st1 [f1 [Hloop [Herr [Hdd Hout]]]]].
  cbn [initial_frame errors downloads_data app] in Herr, Hdd.
  assert (Hcollect : collect w self (at_loop_start st) = (inl tt, (st1, f1))).
  { rewrite (collect_list w self items _ Hp). exact Hloop. }
  split; [| split].
  - rewrite run_eq, Hcollect, Herr.
    destruct (downloads_data f1) as [| d ds]; [reflexivity |].
    cbn zeta. unfold published.
    destruct (env_truthy (getenv w "GITHUB_ACTIONS")); [| reflexivity].
    rewrite (commit_and_push_changes_all_started w _ _ Hgit). reflexivity.
  - rewrite (run_keeps_after_collect w stdout) by reflexivity.
    rewrite Hcollect. exact Hout.
  - rewrite run_eq, Hcollect, Herr.
    destruct (downloads_data f1) as [| d ds]; [eexists; reflexivity |].
    cbn zeta. unfold published.
    destruct (env_truthy (getenv w "GITHUB_ACTIONS")); [| eexists; reflexivity].
    rewrite (commit_and_push_changes_all_started w _ _ Hgit). eexists. reflexivity.
Qed.

Lemma run_succeeds_witness :
  fst (run (Demo.make None (Some "true") Demo.hub Demo.git_ok)
         (tracker_of (VList [Demo.entry "acme" "app"; Demo.entry "acme" "db"])) Demo.used)
  = inl tt /\
  stdout (snd (run (Demo.make None (Some "true") Demo.hub Demo.git_ok)
                 (tracker_of (VList [Demo.entry "acme" "app"; Demo.entry "acme" "db"]))
                 Demo.used))
  = [nl ++ "Docker Hub Statistics for acme/app"; "Current Downloads: 42";
     nl ++ "Docker Hub Statistics for acme/db"; "Current Downloads: 1,234,567"].
Proof.
  destruct (run_succeeds (Demo.make None (Some "true") Demo.hub Demo.git_ok)
              (tracker_of (VList [Demo.entry "acme" "app"; Demo.entry "acme" "db"]))
              Demo.used [Demo.entry "acme" "app"; Demo.entry "acme" "db"]
              [42%Z; 1234567%Z] eq_refl eq_refl eq_refl
              ltac:(repeat constructor)
              (fun _ _ => ex_intro _ 0%Z eq_refl)) as [Hret [Hout _]].
  split; [exact Hret | exact Hout].
Defined.

(** X11: a fetched count that [format(v, ',')] rejects ([None], a string, a
    list, a dict) is collected all the same, because the entry is appended
    before the count is printed: when standard output accepts the first of
    the two lines, the loop body adds the entry to [downloads_data] and the
    message of the formatting error to [errors], having printed only that
    first line. *)
Theorem unformattable_count_is_stored_and_reported (w : world) (p v : value) (e : exn)
    (st : state) (f : frame) :
  valid_project p = true ->
  fetched (registry w (requests st) (entry_url w p)) = Some v ->
  stdout_write w (nl ++ "Docker Hub Statistics for " ++ entry_name w p) = None ->
  format_grouped v = inr e ->
  exists st' f',
    process_project w p (st, f) = (inl tt, (st', f')) /\
    downloads_data f' = (downloads_data f ++ [download_of (p, v)])%list /\
    errors f'
    = (errors f ++ [error_msg w (field p "username") (field p "repository") e])%list /\
    stdout st'
    = (stdout st ++ [(nl ++ "Docker Hub Statistics for " ++ entry_name w p)%string])%list.
Proof.
  intros Hvalid Hfetched Hline Hformat.
  rewrite (process_project_fetched w p v st f Hvalid Hfetched). cbn zeta.
  rewrite Hline, Hformat. unfold recorded. do 2 eexists. repeat split.
Qed.

Lemma unformattable_count_is_stored_and_reported_witness :
  exists st' f',
    process_project (Demo.make None None Demo.hub_null_count Demo.git_ok)
      (Demo.entry "acme" "app") (Demo.fresh, initial_frame)
    = (inl tt, (st', f')) /\
    downloads_data f' = [download_of (Demo.entry "acme" "app", VNone)] /\
    errors f'
    = ["Error processing acme/app: unsupported format string passed to NoneType.__format__"].
Proof.
  destruct (unformattable_count_is_stored_and_reported
              (Demo.make None None Demo.hub_null_count Demo.git_ok)
              (Demo.entry "acme" "app") VNone
              (TypeError "unsupported format string passed to NoneType.__format__")
              Demo.fresh initial_frame eq_refl eq_refl eq_refl eq_refl)
    as [st' [f' [Hrun [Hdd [Herr _]]]]].
  exists st', f'. split; [exact Hrun |]. split; [exact Hdd | exact Herr].
Defined.

(** X12: at the end of the loop of [run], however it ends, every message
    held in [errors] is the text of an ERROR entry of the log. *)
Theorem recorded_errors_are_logged (w : world) (self : tracker) (st : state) :
  Forall (fun msg => In (ERROR, msg)
                        (log (fst (snd (collect w self (st, initial_frame))))))
         (errors (snd (snd (collect w self (st, initial_frame))))).
Proof.
  unfold collect, bind, eval, ret, raise.
  destruct (py_iter (projects self)) as [items | e].
  - apply (for_each_errors_logged w items (st, initial_frame)). constructor.
  - constructor.
Qed.


(** X13: when the first item the configuration iterates to is not a dict (a
    list starting with a string or a number, or a configuration that is
    itself a dict or a string), [run] raises the [UnboundLocalError] of
    [username] having done nothing but read the clock. *)
Theorem first_item_not_a_dict (w : world) (self : tracker) (st : state)
    (p : value) (rest : list value) :
  py_iter (projects self) = inl (p :: rest) ->
  is_dict p = false ->
  run w self st
  = (inr (UnboundLocalError "username"), with_clock_reads st (S (clock_reads st))).
Proof.
  intros Hiter Hp. rewrite run_eq.
  unfold collect, bind, eval, ret. rewrite Hiter. cbn [for_each]. unfold bind.
  destruct (not_dict_py_get p Hp) as [e He].
  unfold at_loop_start. rewrite (process_project_not_dict w p e _ _ He).
  reflexivity.
Qed.

Lemma first_item_not_a_dict_witness :
  run (Demo.make None None Demo.hub Demo.git_ok)
    (tracker_of (Demo.entry "acme" "app")) Demo.fresh
  = (inr (UnboundLocalError "username"), with_clock_reads Demo.fresh 1).
Proof.
  exact (first_item_not_a_dict (Demo.make None None Demo.hub Demo.git_ok)
           (tracker_of (Demo.entry "acme" "app")) Demo.fresh
           (VStr "username") [VStr "repository"] eq_refl eq_refl).
Defined.

(** X14: when the configuration cannot be iterated ([true] or a number),
    [run] raises the [TypeError] of the [for] statement having done nothing
    but read the clock. *)
Theorem configuration_not_iterable (w : world) (self : tracker) (st : state) (e : exn) :
  py_iter (projects self) = inr e ->
  run w self st = (inr e, with_clock_reads st (S (clock_reads st))).
Proof.
  intro Hiter. rewrite run_eq.
  unfold collect, bind, eval, raise. rewrite Hiter. reflexivity.
Qed.

Lemma configuration_not_iterable_witness :
  run (Demo.make None None Demo.hub Demo.git_ok) (tracker_of (VInt 7)) Demo.fresh
  = (inr (TypeError "'int' object is not iterable"), with_clock_reads Demo.fresh 1).
Proof.
  exact (configuration_not_iterable (Demo.make None None Demo.hub Demo.git_ok)
           (tracker_of (VInt 7)) Demo.fresh
           (TypeError "'int' object is not iterable") eq_refl).
Defined.

(** X15: the rows of a run carry the date read when [run] started, and the
    commit message the date read again when publishing: the second reading
    of the clock, whatever it is. *)
Theorem rows_and_commit_message_read_the_clock_apart (w : world) (self : tracker)
    (st st1 : state) (f1 : frame) :
  collect w self (at_loop_start st) = (inl tt, (st1, f1)) ->
  downloads_data f1 <> [] ->
  env_truthy (getenv w "GITHUB_ACTIONS") = true ->
  (forall history args, exists rc, spawn w history args = Completed rc) ->
  csv_rows (snd (run w self st))
  = Some (ledger_before st
            ++ map (ledger_row w (strftime_now w (clock_reads st))) (downloads_data f1))%list /\
  commands (snd (run w self st))
  = (commands st
       ++ publish_commands (csv_file self) (strftime_now w (S (clock_reads st))))%list.
Proof.
  intros Hcollect Hdd Hflag Hgit.
  pose proof (collect_keeps w csv_rows self (fun _ _ => eq_refl) (fun _ _ => eq_refl)
                (fun _ _ => eq_refl) (at_loop_start st)) as Hcsv.
  pose proof (collect_keeps w commands self (fun _ _ => eq_refl) (fun _ _ => eq_refl)
                (fun _ _ => eq_refl) (at_loop_start st)) as Hcmd.
  pose proof (collect_keeps w clock_reads self (fun _ _ => eq_refl) (fun _ _ => eq_refl)
                (fun _ _ => eq_refl) (at_loop_start st)) as Hclk.
  rewrite Hcollect in Hcsv, Hcmd, Hclk.
  cbn [fst snd at_loop_start with_clock_reads csv_rows commands clock_reads] in Hcsv, Hcmd, Hclk.
  rewrite run_eq, Hcollect.
  destruct (downloads_data f1) as [| d ds]; [contradiction |].
  cbn zeta. unfold published. rewrite Hflag.
  rewrite (commit_and_push_changes_all_started w _ _ Hgit).
  rewrite store_data_result. cbn [snd].
  rewrite !report_keeps by reflexivity.
  cbn [after_info_log with_log with_clock_reads with_commands with_csv_rows csv_rows
       commands clock_reads].
  unfold ledger_before. rewrite Hcsv, Hcmd, Hclk. split; reflexivity.
Qed.

Lemma rows_and_commit_message_read_the_clock_apart_witness :
  csv_rows (snd (run Demo.over_midnight
                   (tracker_of (VList [Demo.entry "acme" "app"; Demo.entry "acme" "db"]))
                   Demo.fresh))
  = Some [header; ["2024-01-01"; "acme/app"; "42"]; ["2024-01-01"; "acme/db"; "1234567"]] /\
  commands (snd (run Demo.over_midnight
                   (tracker_of (VList [Demo.entry "acme" "app"; Demo.entry "acme" "db"]))
                   Demo.fresh))
  = publish_commands "stats/docker_downloads.csv" "2024-01-02".
Proof.
  pose (self := tracker_of (VList [Demo.entry "acme" "app"; Demo.entry "acme" "db"])).
  pose (c := collect Demo.over_midnight self (at_loop_start Demo.fresh)).
  assert (Hcollect : collect Demo.over_midnight self (at_loop_start Demo.fresh)
                     = (inl tt, (fst (snd c), snd (snd c))))
    by (vm_compute; reflexivity).
  assert (Hdd : downloads_data (snd (snd c)) <> [])
    by (intro H; vm_compute in H; discriminate H).
  destruct (rows_and_commit_message_read_the_clock_apart Demo.over_midnight self
              Demo.fresh (fst (snd c)) (snd (snd c)) Hcollect Hdd eq_refl
              (fun _ _ => ex_intro _ 0%Z eq_refl)) as [Hcsv Hcmds].
  split; [exact Hcsv | exact Hcmds].
Defined.
